(** * AI-Persona: the retrieval-augmented chat backend

    A shallow embedding of [backend/services/ragService.js] (the RAG
    service singleton), [backend/routes/rag.js], [backend/routes/chat.js],
    [backend/utils/splitDocument.js] and of the client and the two forms
    of the frontend.

    The third-party collaborators the service calls (the LangChain text
    splitter, the Supabase vector store and table client, the OpenAI chat
    completion endpoint, the clock and the uuid generator) are not code of
    the repository: they appear as records of operations over an abstract
    world [W], exactly at the places where the source calls them. The
    algorithm of the text splitter, with the options the code constructs
    it with, is followed in [LangChain].
    [async]/[await] is sequential composition in a state-and-exception
    monad. What is thrown is kept as its constructor name and its
    [message], which is all the handlers read; the count query of
    [getStats] is followed as well when it rejects with [null] or
    [undefined]. [console.error] output is not modelled. Strings are byte
    strings: ASCII text is itself, and a code unit of the source's UTF-16
    strings beyond ASCII is the bytes of its UTF-8 form (see [Text]). *)

From Stdlib Require Import String Ascii List Arith NArith Bool Lia QArith.
From Stdlib Require Import Decimal DecimalString DecimalNat.
Import ListNotations.
Open Scope string_scope.
Open Scope nat_scope.

Set Implicit Arguments.

(* ===================================================================== *)
(** * JavaScript strings and arrays *)
(* ===================================================================== *)

Module Js.

Definition LF : string := String (ascii_of_nat 10) EmptyString.
Definition dquote : string := String (ascii_of_nat 34) EmptyString.

(** [hay.includes(needle)] *)
Fixpoint includes (needle hay : string) : bool :=
  if prefix needle hay then true
  else match hay with
       | EmptyString => false
       | String _ rest => includes needle rest
       end.

(** [xs.join(sep)] *)
Fixpoint join (sep : string) (xs : list string) : string :=
  match xs with
  | [] => ""
  | x :: rest =>
      match rest with
      | [] => x
      | _ :: _ => x ++ sep ++ join sep rest
      end
  end.


(** Truthiness of a string: only the empty string is falsy. *)
Definition truthy (s : string) : bool :=
  match s with EmptyString => false | String _ _ => true end.

(** A thrown value as far as the code looks at it: the constructor name
    (the error kind) and the [message] property, which is [undefined]
    on values that carry none. *)
Record Error := { name : string; message : option string }.

(** [new Error(msg)] *)
Definition new_Error (msg : string) : Error :=
  {| name := "Error"; message := Some msg |}.

(** What a promise may reject with: any value, [null] and [undefined]
    included. *)
Inductive thrown := thrown_null | thrown_undefined | thrown_value (e : Error).

(** The TypeError of reading a property of [null] or [undefined]. *)
Definition TypeError_reading (property what : string) : Error :=
  {| name := "TypeError";
     message := Some ("Cannot read properties of " ++ what
                        ++ " (reading '" ++ property ++ "')") |}.

(** [error.message] for a caught value: the property ([inr]), or the
    TypeError that reading it throws ([inl]). *)
Definition read_message (error : thrown) : Error + option string :=
  match error with
  | thrown_null => inl (TypeError_reading "message" "null")
  | thrown_undefined => inl (TypeError_reading "message" "undefined")
  | thrown_value e => inr (message e)
  end.

(** [`${error.message}`] *)
Definition tpl (m : option string) : string :=
  match m with Some s => s | None => "undefined" end.

(** [error.message && error.message.includes(needle)] as a condition *)
Definition message_includes (needle : string) (e : Error) : bool :=
  match message e with
  | Some m => truthy m && includes needle m
  | None => false
  end.

(** An optional argument or body field holding a string. *)
Inductive value := undefined | null | str (s : string).

(** A default parameter [x = null] replaces [undefined] only. *)
Definition default_null (v : value) : value :=
  match v with undefined => null | _ => v end.

(** [!v] *)
Definition falsy (v : value) : bool :=
  match v with
  | undefined | null => true
  | str s => negb (truthy s)
  end.

(** The string held by a truthy value: [Some s] exactly when [!v] is
    false. *)
Definition as_truthy (v : value) : option string :=
  match v with
  | str (String _ _ as s) => Some s
  | _ => None
  end.

(** A JavaScript [Map] with string keys: entries in insertion order. *)
Section Map.
Variable V : Type.
Definition Map := list (string * V).

Fixpoint get (k : string) (m : Map) : option V :=
    match m with
    | [] => None
    | (k', v) :: rest => if String.eqb k k' then Some v else get k rest
    end.

Definition has (k : string) (m : Map) : bool :=
    match get k m with Some _ => true | None => false end.

(** [m.set(k, v)]: an existing key keeps its position. *)
Fixpoint set (k : string) (v : V) (m : Map) : Map :=
    match m with
    | [] => [(k, v)]
    | (k', v') :: rest =>
        if String.eqb k k' then (k, v) :: rest else (k', v') :: set k v rest
    end.

(** The map after [m.delete(k)]; the call itself returns [has k m]. *)
Fixpoint delete (k : string) (m : Map) : Map :=
    match m with
    | [] => []
    | (k', v') :: rest =>
        if String.eqb k k' then rest else (k', v') :: delete k rest
    end.

Definition values (m : Map) : list V := map snd m.
End Map.

End Js.

(* ===================================================================== *)
(** * The state-and-exception monad of the asynchronous code *)
(* ===================================================================== *)

Inductive result (A : Type) : Type :=
| Ok (a : A)
| Throw (e : Js.Error).
Arguments Ok {A} a.
Arguments Throw {A} e.

Definition M (W A : Type) : Type := W -> result A * W.

Definition ret {W A} (a : A) : M W A := fun w => (Ok a, w).
Definition throw {W A} (e : Js.Error) : M W A := fun w => (Throw e, w).

Definition bind {W A B} (m : M W A) (k : A -> M W B) : M W B :=
  fun w => match m w with
           | (Ok a, w') => k a w'
           | (Throw e, w') => (Throw e, w')
           end.

(** [try { m } catch (error) { h error }] *)
Definition try_catch {W A} (m : M W A) (h : Js.Error -> M W A) : M W A :=
  fun w => match m w with
           | (Ok a, w') => (Ok a, w')
           | (Throw e, w') => h e w'
           end.

(** How an awaited promise settles when its rejection is followed as any
    value. *)
Inductive awaited (A : Type) : Type :=
| Resolved (a : A)
| Rejected (v : Js.thrown).
Arguments Resolved {A} a.
Arguments Rejected {A} v.

Declare Scope js_scope.
Delimit Scope js_scope with js.
Notation "x <- m ;; k" := (bind m (fun x => k))
  (at level 100, m at next level, right associativity) : js_scope.
Notation "m ;;; k" := (bind m (fun _ => k))
  (at level 100, right associativity) : js_scope.
Open Scope js_scope.


(* ===================================================================== *)
(** * Data model and collaborators *)
(* ===================================================================== *)

(** Free-form metadata object. *)
Definition Metadata := list (string * string).

(** A LangChain [Document]. *)
Record Document := { pageContent : string; metadata : Metadata }.

Record Persona := {
  persona_name : string;
  role : string;
  background : string;
  style : string
}.

Record TextSplitterParams := { chunkSize : nat; chunkOverlap : nat }.

Record ChatMessage := { msg_role : string; msg_content : string }.

(** Argument of [openai.chat.completions.create]. *)
Record CompletionRequest := {
  model : string;
  messages : list ChatMessage;
  max_tokens : nat;
  temperature : Q
}.

(** A completion, as the list of [choices[i].message.content]. *)
Record Completion := { choices : list string }.

(** What the awaited Supabase count query resolves to: [{count, error}]. *)
Record CountReply := { count : option nat; error : option Js.Error }.

Section Collaborators.
Variable W : Type.

(** [new RecursiveCharacterTextSplitter(params)] gives an object with these
    two methods. *)
Record TextSplitter := {
  createDocuments : list string -> list Metadata -> M W (list Document);
  splitText : string -> M W (list string)
}.

(** [SupabaseVectorStore] *)
Record VectorStore := {
  addDocuments : list Document -> M W unit;
  similaritySearch : string -> nat -> M W (list Document)
}.

Record OpenAI := {
  chat_completions_create : CompletionRequest -> M W Completion
}.

(** [await supabase.from('documents').select('*', {count: 'exact', head: true})]
    up to the destructuring of its result: the query resolves to a reply
    [{count, error}], or the awaited expression throws a value. *)
Record SupabaseClient := { select_count : W -> awaited CountReply * W }.

(** Imports and globals of the Node.js runtime. [new Date().toISOString()]
    and [uuidv4()] do not throw. *)
Record Runtime := {
  RecursiveCharacterTextSplitter : TextSplitterParams -> TextSplitter;
  toISOString_now : W -> string;
  uuidv4 : W -> string * W
}.

(** The fields of the [RAGService] object; [vectorStore] is [null] until
    (and unless) [initializeVectorStore] succeeds. *)
Record RAGService := {
  supabase : SupabaseClient;
  openai : OpenAI;
  vectorStore : option VectorStore;
  persona : Persona
}.

End Collaborators.

Arguments vectorStore {W} _.
Arguments supabase {W} _.
Arguments openai {W} _.
Arguments persona {W} _.

(* ===================================================================== *)
(** * services/ragService.js *)
(* ===================================================================== *)

Module RAG.

Definition the_persona : Persona := {|
  persona_name := "Mallikarjuna Iytha";
  role := "AI/ML Engineer and Technology Leader";
  background := "Experienced professional in artificial intelligence, machine learning, and technology leadership";
  style := "Professional, knowledgeable, and helpful with a focus on AI/ML and technology topics"
|}.

Definition quota_message : string :=
  "OpenAI API quota exceeded. Please check your billing or try again later.".

(** Result of [uploadDocument]. *)
Record UploadResult := {
  success : bool;
  upload_message : string;
  chunks : nat;
  upload_metadata : Metadata
}.

(** One entry of [sources]. *)
Record Source := { content : string; source_metadata : Metadata }.

Record ChatResult := {
  response : string;
  sources : list Source;
  sessionId : Js.value
}.

Record QueryResult := {
  query : string;
  query_response : string;
  query_sources : list Source
}.

Record Stats := {
  totalDocuments : nat;
  vectorStoreStatus : string;
  stats_error : option string;
  stats_timestamp : string
}.

Record Health := {
  status : string;
  health_vectorStore : option string;
  documents : option nat;
  health_error : option string;
  health_timestamp : string
}.

Record SessionInfo := {
  info_id : string;
  info_createdAt : string;
  messageCount : nat
}.

(** [doc => ({content: doc.pageContent, metadata: doc.metadata})] *)
Definition to_source (doc : Document) : Source :=
  {| content := pageContent doc; source_metadata := metadata doc |}.

(** The user prompt of [generatePersonaResponse]. *)
Definition prompt_of (p : Persona) (query context : string) : string :=
  "You are " ++ persona_name p ++ ", " ++ role p ++
  ". You should respond as if you are this person, using your knowledge, experience, and personal style."
  ++ Js.LF ++ Js.LF ++
  "Your background: " ++ background p ++ Js.LF ++
  "Your communication style: " ++ style p ++ Js.LF ++ Js.LF ++
  "Use the following context from your documents, interviews, articles, and videos to answer the user's question. Respond as if you are speaking directly to them, drawing from your personal experience and knowledge:"
  ++ Js.LF ++ Js.LF ++
  "Context:" ++ Js.LF ++ context ++ Js.LF ++ Js.LF ++
  "Question: " ++ query ++ Js.LF ++ Js.LF ++
  "Remember: You ARE " ++ persona_name p ++
  ". Respond in first person, using phrases like " ++
  Js.dquote ++ "I believe" ++ Js.dquote ++ ", " ++
  Js.dquote ++ "In my experience" ++ Js.dquote ++ ", " ++
  Js.dquote ++ "Based on my work" ++ Js.dquote ++
  ", etc. Be authentic to your persona while being helpful and informative.".

(** The system message of [generatePersonaResponse]. *)
Definition system_of (p : Persona) : string :=
  "You are " ++ persona_name p ++ ", " ++ role p ++
  ". You are an AI assistant that responds as this specific person would, based on their documents, interviews, articles, and videos. Always respond in first person as if you are "
  ++ persona_name p ++ " speaking directly to the user.".

Definition request_of (p : Persona) (query context : string) : CompletionRequest :=
  {| model := "gpt-3.5-turbo";
     messages := [ {| msg_role := "system"; msg_content := system_of p |};
                   {| msg_role := "user"; msg_content := prompt_of p query context |} ];
     max_tokens := 600;
     temperature := 7 # 10 |}.

(** The two quota tests and the generic rethrow shared by the catch blocks
    of [searchDocuments] and [generatePersonaResponse]. *)
Definition is_quota (e : Js.Error) : bool :=
  Js.message_includes "429" e || Js.message_includes "InsufficientQuotaError" e.

Section Service.
Variable W : Type.
Variable rt : Runtime W.
Variable this : RAGService W.

Definition uploadDocument (content : string) (metadata : Metadata)
  : M W UploadResult :=
  try_catch
    (let textSplitter :=
       RecursiveCharacterTextSplitter rt {| chunkSize := 1000; chunkOverlap := 200 |} in
     docs <- createDocuments textSplitter [content] [metadata] ;;
     (match vectorStore this with
      | Some vs => addDocuments vs docs
      | None => ret tt
      end) ;;;
     ret {| success := true;
            upload_message := "Document uploaded successfully";
            chunks := length docs;
            upload_metadata := metadata |})
    (fun error =>
       throw (Js.new_Error ("Failed to upload document: " ++ Js.tpl (Js.message error)))).

Definition searchDocuments (query : string) (limit : nat) : M W (list Document) :=
  try_catch
    (match vectorStore this with
     | None => throw (Js.new_Error "Vector store not initialized")
     | Some vs => similaritySearch vs query limit
     end)
    (fun error =>
       if Js.message_includes "429" error then throw (Js.new_Error quota_message)
       else if Js.message_includes "InsufficientQuotaError" error
       then throw (Js.new_Error quota_message)
       else throw (Js.new_Error ("Failed to search documents: " ++ Js.tpl (Js.message error)))).

Definition generatePersonaResponse (query context : string) : M W string :=
  try_catch
    (completion <- chat_completions_create (openai this)
                     (request_of (persona this) query context) ;;
     match choices completion with
     | c :: _ => ret c
     | [] => throw {| Js.name := "TypeError";
                      Js.message := Some "Cannot read properties of undefined (reading 'message')" |}
     end)
    (fun error =>
       if Js.message_includes "429" error then throw (Js.new_Error quota_message)
       else if Js.message_includes "InsufficientQuotaError" error
       then throw (Js.new_Error quota_message)
       else throw (Js.new_Error ("Failed to generate response: " ++ Js.tpl (Js.message error)))).

(** [results.map(doc => doc.pageContent).join('\n\n')] *)
Definition context_of (results : list Document) : string :=
  Js.join (Js.LF ++ Js.LF) (map pageContent results).

Definition chat (message : string) (sessionId : Js.value) : M W ChatResult :=
  let sessionId := Js.default_null sessionId in
  try_catch
    (results <- searchDocuments message 5 ;;
     let context := context_of results in
     response <- generatePersonaResponse message context ;;
     ret {| response := response;
            sources := map to_source results;
            sessionId := sessionId |})
    (fun error =>
       throw (Js.new_Error ("Failed to generate response: " ++ Js.tpl (Js.message error)))).

Definition directQuery (query : string) : M W QueryResult :=
  try_catch
    (results <- searchDocuments query 3 ;;
     let context := context_of results in
     response <- generatePersonaResponse query context ;;
     ret {| query := query;
            query_response := response;
            query_sources := map to_source results |})
    (fun error =>
       throw (Js.new_Error ("Failed to process direct query: " ++ Js.tpl (Js.message error)))).

Definition getSession (sessionId : string) : M W SessionInfo :=
  fun w => (Ok {| info_id := sessionId;
                  info_createdAt := toISOString_now rt w;
                  messageCount := 0 |}, w).

(** The [catch] block of [getStats]: it builds the error record from
    [error.message], a read that throws when the caught value is [null] or
    [undefined]. *)
Definition getStats_catch (caught : Js.thrown) : M W Stats :=
  fun w =>
    match Js.read_message caught with
    | inr message =>
        (Ok {| totalDocuments := 0;
               vectorStoreStatus := "error";
               stats_error := message;
               stats_timestamp := toISOString_now rt w |}, w)
    | inl type_error => (Throw type_error, w)
    end.

Definition getStats : M W Stats :=
  fun w =>
    match select_count (supabase this) w with
    | (Resolved reply, w1) =>
        match error reply with
        | Some e => getStats_catch (Js.thrown_value e) w1
        | None =>
            (Ok {| totalDocuments := match count reply with
                                     | Some n => n
                                     | None => 0
                                     end;
                   vectorStoreStatus := match vectorStore this with
                                        | Some _ => "active"
                                        | None => "inactive"
                                        end;
                   stats_error := None;
                   stats_timestamp := toISOString_now rt w1 |}, w1)
        end
    | (Rejected caught, w1) => getStats_catch caught w1
    end.

Definition healthCheck : M W Health :=
  try_catch
    (stats <- getStats ;;
     fun w => (Ok {| status := "healthy";
                     health_vectorStore := Some (vectorStoreStatus stats);
                     documents := Some (totalDocuments stats);
                     health_error := None;
                     health_timestamp := toISOString_now rt w |}, w))
    (fun error w =>
       (Ok {| status := "unhealthy";
              health_vectorStore := None;
              documents := None;
              health_error := Js.message error;
              health_timestamp := toISOString_now rt w |}, w)).

End Service.

(** The constructor: [initializeVectorStore] leaves [vectorStore] at [null]
    when [new SupabaseVectorStore(...)] throws. *)
Definition new_RAGService {W} (createClient : SupabaseClient W) (new_OpenAI : OpenAI W)
    (new_SupabaseVectorStore : result (VectorStore W)) : RAGService W :=
  {| supabase := createClient;
     openai := new_OpenAI;
     vectorStore := match new_SupabaseVectorStore with
                    | Ok vs => Some vs
                    | Throw _ => None
                    end;
     persona := the_persona |}.

End RAG.


(* ===================================================================== *)
(** * routes/chat.js and routes/rag.js *)
(* ===================================================================== *)

Module Routes.

Record MessageObj := {
  msg_id : string;
  msg_text : string;
  msg_type : Js.value;
  msg_timestamp : string
}.

(** A chat session of [routes/chat.js]. *)
Record Session := {
  id : string;
  createdAt : string;
  session_messages : list MessageObj;
  session_metadata : Metadata
}.

Record SessionSummary := {
  sum_id : string;
  sum_createdAt : string;
  sum_messageCount : nat;
  sum_metadata : Metadata
}.

(** The JSON bodies the handlers send. *)
Inductive Body :=
| body_error (msg : option string)
| body_upload (r : RAG.UploadResult)
| body_chat (r : RAG.ChatResult)
| body_info (r : RAG.SessionInfo)
| body_stats (r : RAG.Stats)
| body_query (r : RAG.QueryResult)
| body_health (r : RAG.Health)
| body_started (sessionId : string) (msg : string) (session : Session)
| body_sent (msg : string) (messageObj : MessageObj) (session : Session)
| body_session (session : Session)
| body_ended (msg : string)
| body_sessions (l : list SessionSummary).

Record Response := { http_status : nat; body : Body }.

(** [res.json(b)] and [res.status(c).json(b)] *)
Definition json (b : Body) : Response := {| http_status := 200; body := b |}.
Definition status_json (c : nat) (b : Body) : Response :=
  {| http_status := c; body := b |}.

(** The requests of the two routers, with the body fields and path
    parameters the handlers read. The health routes and the fallback
    handlers of [server.js] live in modules where [chatSessions] is not in
    scope and call nothing of the service; they are left out. *)
Inductive Request :=
| POST_rag_upload (content : Js.value) (metadata : option Metadata)
| POST_rag_chat (message sessionId : Js.value)
| GET_rag_session (sessionId : string)
| GET_rag_stats
| POST_rag_query (query : Js.value)
| GET_rag_health
| POST_chat_start (metadata : option Metadata)
| POST_chat_message (sessionId message type : Js.value)
| GET_chat_session (sessionId : string)
| DELETE_chat_session (sessionId : string)
| GET_chat_sessions.

(** Process state: the module-private [chatSessions] map of
    [routes/chat.js] and the world the service's collaborators act on. *)
Record AppState (W : Type) := {
  chatSessions : Js.Map Session;
  world : W
}.
Arguments chatSessions {W} _.
Arguments world {W} _.

(** [metadata = {}] and [req.body.metadata || {}] *)
Definition or_empty (metadata : option Metadata) : Metadata :=
  match metadata with Some m => m | None => [] end.

Section Handlers.
Variable W : Type.
Variable rt : Runtime W.
Variable ragService : RAGService W.

(** A call into the service: it acts on the world only. *)
Definition call {A} (m : M W A) : M (AppState W) A :=
  fun st => let (r, w') := m (world st) in
            (r, {| chatSessions := chatSessions st; world := w' |}).

Definition now : M (AppState W) string :=
  fun st => (Ok (toISOString_now rt (world st)), st).

Definition fresh_uuid : M (AppState W) string :=
  fun st => let (u, w') := uuidv4 rt (world st) in
            (Ok u, {| chatSessions := chatSessions st; world := w' |}).

Definition internal_error (error : Js.Error) : M (AppState W) Response :=
  ret (status_json 500 (body_error (Js.message error))).

(** ** routes/rag.js *)

Definition rag_upload (content : Js.value) (metadata : option Metadata)
  : M (AppState W) Response :=
  try_catch
    (let metadata := or_empty metadata in
     match Js.as_truthy content with
     | None => ret (status_json 400 (body_error (Some "Document content is required")))
     | Some content =>
         result <- call (RAG.uploadDocument rt ragService content metadata) ;;
         ret (json (body_upload result))
     end)
    internal_error.

Definition rag_chat (message sessionId : Js.value) : M (AppState W) Response :=
  try_catch
    (match Js.as_truthy message with
     | None => ret (status_json 400 (body_error (Some "Message is required")))
     | Some message =>
         result <- call (RAG.chat ragService message sessionId) ;;
         ret (json (body_chat result))
     end)
    internal_error.

Definition rag_session (sessionId : string) : M (AppState W) Response :=
  try_catch
    (session <- call (RAG.getSession rt sessionId) ;;
     ret (json (body_info session)))
    internal_error.

Definition rag_stats : M (AppState W) Response :=
  try_catch
    (stats <- call (RAG.getStats rt ragService) ;;
     ret (json (body_stats stats)))
    internal_error.

Definition rag_query (query : Js.value) : M (AppState W) Response :=
  try_catch
    (match Js.as_truthy query with
     | None => ret (status_json 400 (body_error (Some "Query is required")))
     | Some query =>
         result <- call (RAG.directQuery ragService query) ;;
         ret (json (body_query result))
     end)
    internal_error.

Definition rag_health : M (AppState W) Response :=
  try_catch
    (health <- call (RAG.healthCheck rt ragService) ;;
     ret (json (body_health health)))
    internal_error.

(** ** routes/chat.js *)

Definition sessions_set (k : string) (s : Session) : M (AppState W) unit :=
  fun st => (Ok tt, {| chatSessions := Js.set k s (chatSessions st);
                       world := world st |}).

Definition sessions_get (k : string) : M (AppState W) (option Session) :=
  fun st => (Ok (Js.get k (chatSessions st)), st).

Definition sessions_delete (k : string) : M (AppState W) bool :=
  fun st => (Ok (Js.has k (chatSessions st)),
             {| chatSessions := Js.delete k (chatSessions st);
                world := world st |}).

Definition chat_start (metadata : option Metadata) : M (AppState W) Response :=
  try_catch
    (sessionId <- fresh_uuid ;;
     t <- now ;;
     let session := {| id := sessionId;
                       createdAt := t;
                       session_messages := [];
                       session_metadata := or_empty metadata |} in
     sessions_set sessionId session ;;;
     ret (json (body_started sessionId "Chat session started successfully" session)))
    internal_error.

(** [session.messages.push(messageObj)] mutates the object the map holds:
    the entry under [sessionId] changes in place. *)
Definition chat_message (sessionId message type : Js.value) : M (AppState W) Response :=
  try_catch
    (let type := match type with Js.undefined => Js.str "user" | _ => type end in
     match Js.as_truthy sessionId, Js.as_truthy message with
     | Some sessionId, Some message =>
         found <- sessions_get sessionId ;;
         match found with
         | None => ret (status_json 404 (body_error (Some "Chat session not found")))
         | Some session =>
             u <- fresh_uuid ;;
             t <- now ;;
             let messageObj := {| msg_id := u;
                                  msg_text := message;
                                  msg_type := type;
                                  msg_timestamp := t |} in
             let session' := {| id := id session;
                                createdAt := createdAt session;
                                session_messages := session_messages session ++ [messageObj];
                                session_metadata := session_metadata session |} in
             sessions_set sessionId session' ;;;
             ret (json (body_sent "Message sent successfully" messageObj session'))
         end
     | _, _ => ret (status_json 400 (body_error (Some "Session ID and message are required")))
     end)
    internal_error.

Definition chat_session (sessionId : string) : M (AppState W) Response :=
  try_catch
    (found <- sessions_get sessionId ;;
     match found with
     | None => ret (status_json 404 (body_error (Some "Chat session not found")))
     | Some session => ret (json (body_session session))
     end)
    internal_error.

Definition chat_end (sessionId : string) : M (AppState W) Response :=
  try_catch
    (deleted <- sessions_delete sessionId ;;
     if deleted
     then ret (json (body_ended "Chat session ended successfully"))
     else ret (status_json 404 (body_error (Some "Chat session not found"))))
    internal_error.

Definition summary (session : Session) : SessionSummary :=
  {| sum_id := id session;
     sum_createdAt := createdAt session;
     sum_messageCount := length (session_messages session);
     sum_metadata := session_metadata session |}.

Definition chat_sessions : M (AppState W) Response :=
  try_catch
    (fun st => (Ok (json (body_sessions (map summary (Js.values (chatSessions st))))), st))
    internal_error.

(** The router: one request, one response, one state transition. *)
Definition handle (req : Request) : M (AppState W) Response :=
  match req with
  | POST_rag_upload content metadata => rag_upload content metadata
  | POST_rag_chat message sessionId => rag_chat message sessionId
  | GET_rag_session sessionId => rag_session sessionId
  | GET_rag_stats => rag_stats
  | POST_rag_query query => rag_query query
  | GET_rag_health => rag_health
  | POST_chat_start metadata => chat_start metadata
  | POST_chat_message sessionId message type => chat_message sessionId message type
  | GET_chat_session sessionId => chat_session sessionId
  | DELETE_chat_session sessionId => chat_end sessionId
  | GET_chat_sessions => chat_sessions
  end.

(** Requests whose handler lives in [routes/chat.js] and writes to
    [chatSessions]. *)
Definition writes_sessions (req : Request) : bool :=
  match req with
  | POST_chat_start _ | POST_chat_message _ _ _ | DELETE_chat_session _ => true
  | _ => false
  end.

End Handlers.

Section Frame.
Variable W : Type.

(** A handler leaves [chatSessions] as it found it. *)
Definition preserves (A : Type) (m : M (AppState W) A) : Prop :=
  forall st, chatSessions (snd (m st)) = chatSessions st.

(** A handler neither reads nor writes [chatSessions]: its result and the
    world it leaves depend on the world alone. *)
Definition blind (A : Type) (m : M (AppState W) A) : Prop :=
  forall st st',
    world st = world st' ->
    fst (m st) = fst (m st') /\
    world (snd (m st)) = world (snd (m st')).

End Frame.

Arguments preserves : clear implicits.
Arguments blind : clear implicits.

End Routes.

(* ===================================================================== *)
(** * frontend/src/components/ChatInterface.jsx *)
(* ===================================================================== *)

Module Frontend.



End Frontend.


(* ===================================================================== *)
(** * The Chunker and the Vector Index *)
(* ===================================================================== *)

Module Chunker.

Record Chunk := { chunk_text : string; chunkIndex : nat }.

Definition EmptyInputError : Js.Error :=
  {| Js.name := "EmptyInputError";
     Js.message := Some "input text is empty or whitespace-only" |}.

Definition is_space (c : ascii) : bool :=
  let n := nat_of_ascii c in
  (n =? 32) || ((9 <=? n) && (n <=? 13)).

Fixpoint blank (s : string) : bool :=
  match s with
  | EmptyString => true
  | String c rest => is_space c && blank rest
  end.

(** Paragraph break, sentence break, whitespace; the hard character
    boundary is the fallback of [cut_point]. *)
Definition separators : list string := [Js.LF ++ Js.LF; ". "; " "].

(** End positions of the occurrences of [sep] in [s], counted from [i]. *)
Fixpoint break_ends (sep s : string) (i : nat) : list nat :=
  match s with
  | EmptyString => []
  | String _ rest =>
      (if prefix sep s then [i + String.length sep] else [])
        ++ break_ends sep rest (S i)
  end.

(** The last break of [sep] that ends in the window: after [lo], at or
    before [hi]. *)
Definition last_break (sep s : string) (lo hi : nat) : option nat :=
  fold_left (fun best n => if (lo <? n) && (n <=? hi) then Some n else best)
            (break_ends sep s 0) None.

Fixpoint first_break (seps : list string) (s : string) (lo hi : nat) : option nat :=
  match seps with
  | [] => None
  | sep :: rest =>
      match last_break sep s lo hi with
      | Some n => Some n
      | None => first_break rest s lo hi
      end
  end.

Definition cut_point (s : string) (targetSize overlap : nat) : nat :=
  match first_break separators s overlap targetSize with
  | Some n => n
  | None => targetSize
  end.

(** The chunk texts of what is left of the document; each step consumes
    at least one character when [overlap < targetSize]. *)
Fixpoint windows (fuel : nat) (rest : string) (targetSize overlap : nat) : list string :=
  match fuel with
  | 0 => []
  | S fuel' =>
      if String.length rest <=? targetSize then [rest]
      else
        let n := cut_point rest targetSize overlap in
        substring 0 n rest
          :: windows fuel' (substring (n - overlap) (String.length rest - (n - overlap)) rest)
                     targetSize overlap
  end.

Fixpoint number (i : nat) (texts : list string) : list Chunk :=
  match texts with
  | [] => []
  | t :: rest => {| chunk_text := t; chunkIndex := i |} :: number (S i) rest
  end.

(** Modelled from the spec: the Chunker's [split(text, targetSize,
    overlap)]. The repository has no splitter of its own: the source
    constructs LangChain's [RecursiveCharacterTextSplitter] with
    [chunkSize: 1000] and [chunkOverlap: 200], whose code is not part of
    it. Following section 4.1: empty or whitespace-only text fails with
    [EmptyInputError]; the text is cut at the last paragraph break, else
    sentence break, else whitespace, else at the hard character boundary
    that keeps the chunk within [targetSize]; the next chunk starts
    [overlap] characters before the cut. *)
Definition split (text : string) (targetSize overlap : nat) : result (list Chunk) :=
  if blank text then Throw EmptyInputError
  else Ok (number 0 (windows (String.length text) text targetSize overlap)).

End Chunker.

Module VectorIndex.

Section Index.
Variable Vec : Type.
Variable similarity : Vec -> Vec -> Q.

Record IndexEntry := {
  vector : Vec;
  text : string;
  entry_metadata : Metadata
}.

Definition IndexUnavailableError (cause : string) : Js.Error :=
  {| Js.name := "IndexUnavailableError"; Js.message := Some cause |}.

Definition add (entries idx : list IndexEntry) : list IndexEntry := idx ++ entries.

Definition count (idx : list IndexEntry) : nat := length idx.

(** Insertion behind every entry that is at least as similar: entries of
    equal similarity stay in insertion order. *)
Fixpoint insert_ranked (q : Vec) (e : IndexEntry) (ranked : list IndexEntry)
  : list IndexEntry :=
  match ranked with
  | [] => [e]
  | r :: rest =>
      if Qle_bool (similarity q (vector e)) (similarity q (vector r))
      then r :: insert_ranked q e rest
      else e :: r :: rest
  end.

Definition rank (q : Vec) (idx : list IndexEntry) : list IndexEntry :=
  fold_left (fun ranked e => insert_ranked q e ranked) idx [].

(** Modelled from the spec: the Vector Index's [search(queryVector, k)].
    The source delegates to [SupabaseVectorStore.similaritySearch] and the
    [match_documents] database function, neither of which is code of the
    repository. Following section 4.3 and the data model: the [k] entries
    most similar to the query across the whole index, by descending
    similarity, ties in insertion order; an empty index gives an empty
    result. The similarity (cosine, on real vectors) is a parameter: only
    its order matters here. *)
Definition search (q : Vec) (k : nat) (idx : list IndexEntry) : list IndexEntry :=
  firstn k (rank q idx).

End Index.

End VectorIndex.


(* ===================================================================== *)
(** * In-memory collaborators *)
(* ===================================================================== *)

(** Fakes of the external services, built on the Chunker and the Vector
    Index above; each can be told to fail. They give the theorems below
    their concrete instances. *)
Module InMemory.

Section Fakes.
Variable Vec : Type.
Variable embed : string -> Vec.
Variable similarity : Vec -> Vec -> Q.

Record World := {
  index : list (VectorIndex.IndexEntry Vec);
  embedding_failure : option Js.Error;
  index_failure : option Js.Error;
  generation_failure : option Js.Error;
  clock : string;
  uuids : list string
}.

Definition with_index (idx : list (VectorIndex.IndexEntry Vec)) (w : World) : World :=
  {| index := idx;
     embedding_failure := embedding_failure w;
     index_failure := index_failure w;
     generation_failure := generation_failure w;
     clock := clock w;
     uuids := uuids w |}.

Definition with_uuids (us : list string) (w : World) : World :=
  {| index := index w;
     embedding_failure := embedding_failure w;
     index_failure := index_failure w;
     generation_failure := generation_failure w;
     clock := clock w;
     uuids := us |}.

Definition entry_of (doc : Document) : VectorIndex.IndexEntry Vec :=
  {| VectorIndex.vector := embed (pageContent doc);
     VectorIndex.text := pageContent doc;
     VectorIndex.entry_metadata := metadata doc |}.

Definition doc_of (e : VectorIndex.IndexEntry Vec) : Document :=
  {| pageContent := VectorIndex.text e; metadata := VectorIndex.entry_metadata e |}.

(** Embedding comes first, then the index; either may fail. *)
Definition guarded {A} (k : M World A) : M World A :=
  fun w => match embedding_failure w with
           | Some e => (Throw e, w)
           | None =>
               match index_failure w with
               | Some e => (Throw e, w)
               | None => k w
               end
           end.

Definition store : VectorStore World :=
  {| addDocuments := fun docs =>
       guarded (fun w => (Ok tt, with_index (VectorIndex.add (map entry_of docs) (index w)) w));
     similaritySearch := fun q k =>
       guarded (fun w => (Ok (map doc_of (VectorIndex.search similarity (embed q) k (index w))), w)) |}.

(** The fake model answers with the user prompt it was given. *)
Definition openai_client : OpenAI World :=
  {| chat_completions_create := fun req w =>
       match generation_failure w with
       | Some e => (Throw e, w)
       | None => (Ok {| choices := map msg_content (tl (messages req)) |}, w)
       end |}.

Definition supabase_client : SupabaseClient World :=
  {| select_count := fun w =>
       match index_failure w with
       | Some e => (Resolved {| count := None; error := Some e |}, w)
       | None =>
           (Resolved {| count := Some (VectorIndex.count (index w)); error := None |}, w)
       end |}.

Fixpoint create_documents (p : TextSplitterParams) (texts : list string)
    (metadatas : list Metadata) : result (list Document) :=
  match texts with
  | [] => Ok []
  | t :: ts =>
      match Chunker.split t (chunkSize p) (chunkOverlap p) with
      | Throw e => Throw e
      | Ok cs =>
          match create_documents p ts (tl metadatas) with
          | Throw e => Throw e
          | Ok rest =>
              Ok (map (fun c => {| pageContent := Chunker.chunk_text c;
                                   metadata := hd [] metadatas |}) cs ++ rest)%list
          end
      end
  end.

Definition splitter (p : TextSplitterParams) : TextSplitter World :=
  {| createDocuments := fun texts metadatas w => (create_documents p texts metadatas, w);
     splitText := fun t w =>
       (match Chunker.split t (chunkSize p) (chunkOverlap p) with
        | Throw e => Throw e
        | Ok cs => Ok (map Chunker.chunk_text cs)
        end, w) |}.




Definition runtime : Runtime World :=
  {| RecursiveCharacterTextSplitter := splitter;
     toISOString_now := clock;
     uuidv4 := fun w => match uuids w with
                        | u :: rest => (u, with_uuids rest w)
                        | [] => ("", w)
                        end |}.


(** The service as its constructor builds it; [store_up = false] is the
    case where creating the vector store threw. *)
Definition service (store_up : bool) : RAGService World :=
  RAG.new_RAGService supabase_client openai_client
    (if store_up then Ok store
     else Throw (Js.new_Error "supabaseUrl is required.")).

End Fakes.

(** A toy embedding for closed examples: a text is embedded as its
    length, and nearer lengths are more similar. *)
Definition toy_embed (s : string) : nat := String.length s.

Definition toy_similarity (q v : nat) : Q :=
  inject_Z (- Z.of_nat ((q - v) + (v - q))).

Definition healthy_world : World nat :=
  {| index := [];
     embedding_failure := None;
     index_failure := None;
     generation_failure := None;
     clock := "2025-01-01T00:00:00.000Z";
     uuids := ["3b241101-e2bb-4255-8caf-4136c566a962"; "7c9e6679-7425-40de-944b-e07fc1f90ae7"] |}.

Definition toy_service (store_up : bool) : RAGService (World nat) :=
  service toy_embed toy_similarity store_up.

Definition toy_runtime : Runtime (World nat) := runtime nat.

End InMemory.


(* ===================================================================== *)
(** * Outcomes of the service operations *)
(* ===================================================================== *)

(** Closed forms of what the operations return, used to state their
    behaviour. *)
Module Outcome.

(** What the catch block of [searchDocuments] throws for [e]. *)
Definition search_rethrow (e : Js.Error) : Js.Error :=
  if RAG.is_quota e then Js.new_Error RAG.quota_message
  else Js.new_Error ("Failed to search documents: " ++ Js.tpl (Js.message e)).

(** The value the [catch] block of [getStats] receives, if any: what the
    awaited count query rejected with, or the [error] field it resolved
    with. *)
Definition count_failure (r : awaited CountReply) : option Js.thrown :=
  match r with
  | Rejected caught => Some caught
  | Resolved reply =>
      match error reply with
      | Some e => Some (Js.thrown_value e)
      | None => None
      end
  end.

(** Whether [error.message] can be read on what the count query failed
    with. *)
Definition message_readable (r : awaited CountReply) : bool :=
  match count_failure r with
  | Some Js.thrown_null | Some Js.thrown_undefined => false
  | _ => true
  end.

(** What [uploadDocument] throws for [e]. *)
Definition upload_rethrow (e : Js.Error) : Js.Error :=
  Js.new_Error ("Failed to upload document: " ++ Js.tpl (Js.message e)).

Definition uploaded (docs : list Document) (metadata : Metadata) : RAG.UploadResult :=
  {| RAG.success := true;
     RAG.upload_message := "Document uploaded successfully";
     RAG.chunks := length docs;
     RAG.upload_metadata := metadata |}.

Section Outcomes.
Variable W : Type.
Variable this : RAGService W.

(** The outcome of [chat] once retrieval has returned. *)
Definition chat_finish (results : list Document) (sid : Js.value)
    (r : result string * W) : result RAG.ChatResult * W :=
  match r with
  | (Ok response, w') =>
      (Ok {| RAG.response := response;
             RAG.sources := map RAG.to_source results;
             RAG.sessionId := Js.default_null sid |}, w')
  | (Throw e, w') =>
      (Throw (Js.new_Error ("Failed to generate response: " ++ Js.tpl (Js.message e))), w')
  end.

Definition query_finish (q : string) (results : list Document)
    (r : result string * W) : result RAG.QueryResult * W :=
  match r with
  | (Ok response, w') =>
      (Ok {| RAG.query := q;
             RAG.query_response := response;
             RAG.query_sources := map RAG.to_source results |}, w')
  | (Throw e, w') =>
      (Throw (Js.new_Error ("Failed to process direct query: " ++ Js.tpl (Js.message e))), w')
  end.

Definition stats_of (r : awaited CountReply) (now : string) : result RAG.Stats :=
  match count_failure r with
  | Some caught =>
      match Js.read_message caught with
      | inr message =>
          Ok {| RAG.totalDocuments := 0;
                RAG.vectorStoreStatus := "error";
                RAG.stats_error := message;
                RAG.stats_timestamp := now |}
      | inl type_error => Throw type_error
      end
  | None =>
      Ok {| RAG.totalDocuments := match r with
                                  | Resolved {| count := Some n |} => n
                                  | _ => 0
                                  end;
            RAG.vectorStoreStatus := match vectorStore this with
                                     | Some _ => "active"
                                     | None => "inactive"
                                     end;
            RAG.stats_error := None;
            RAG.stats_timestamp := now |}
  end.


End Outcomes.

End Outcome.

(* ===================================================================== *)
(** * Scenarios *)
(* ===================================================================== *)

(** Concrete worlds and inputs for the closed examples. *)
Module Scenario.

(** A provider error of the quota kind, as the embedding call of a
    similarity search raises it on HTTP 429. *)
Definition quota_error : Js.Error :=
  {| Js.name := "QuotaExceededError";
     Js.message := Some "429 You exceeded your current quota, please check your plan and billing details." |}.

(** A provider failure that is not about quota. *)
Definition network_error : Js.Error :=
  {| Js.name := "FetchError"; Js.message := Some "connect ECONNREFUSED 127.0.0.1:443" |}.

Definition world_with_embedding_failure (e : Js.Error) : InMemory.World nat :=
  {| InMemory.index := [];
     InMemory.embedding_failure := Some e;
     InMemory.index_failure := None;
     InMemory.generation_failure := None;
     InMemory.clock := "2025-01-01T00:00:00.000Z";
     InMemory.uuids := [] |}.

Definition world_with_index_failure (e : Js.Error) : InMemory.World nat :=
  {| InMemory.index := [];
     InMemory.embedding_failure := None;
     InMemory.index_failure := Some e;
     InMemory.generation_failure := None;
     InMemory.clock := "2025-01-01T00:00:00.000Z";
     InMemory.uuids := [] |}.



(** A healthy world whose index holds the given chunk texts, in insertion
    order. *)
Definition indexed (texts : list string) : InMemory.World nat :=
  {| InMemory.index :=
       map (fun t => InMemory.entry_of InMemory.toy_embed
                       {| pageContent := t; metadata := [("source", "person1.txt")] |})
           texts;
     InMemory.embedding_failure := None;
     InMemory.index_failure := None;
     InMemory.generation_failure := None;
     InMemory.clock := "2025-01-01T00:00:00.000Z";
     InMemory.uuids := [] |}.

Definition seven_chunks : list string :=
  ["a"; "bb"; "ccc"; "dddd"; "eeeee"; "ffffff"; "ggggggg"].

(** What [chat] answers to "hello" over the index of seven chunks. *)
Definition seven_chat_result : RAG.ChatResult :=
  Eval vm_compute in
    match fst (RAG.chat (InMemory.toy_service true) "hello" Js.undefined
                 (indexed seven_chunks)) with
    | Ok r => r
    | Throw _ => {| RAG.response := ""; RAG.sources := []; RAG.sessionId := Js.null |}
    end.

Definition seven_query_result : RAG.QueryResult :=
  Eval vm_compute in
    match fst (RAG.directQuery (InMemory.toy_service true) "hello"
                 (indexed seven_chunks)) with
    | Ok r => r
    | Throw _ => {| RAG.query := ""; RAG.query_response := ""; RAG.query_sources := [] |}
    end.

(** A service whose count query rejects with [caught] instead of
    resolving. *)
Definition service_with_rejecting_count (caught : Js.thrown)
    : RAGService (InMemory.World nat) :=
  RAG.new_RAGService
    {| select_count := fun w => (Rejected caught, w) |}
    (InMemory.openai_client nat)
    (Ok (InMemory.store InMemory.toy_embed InMemory.toy_similarity)).

Definition service_with_throwing_count : RAGService (InMemory.World nat) :=
  service_with_rejecting_count (Js.thrown_value network_error).

(** A process state with one chat session open. *)
Definition one_session : Routes.AppState (InMemory.World nat) :=
  {| Routes.chatSessions :=
       [("3b241101-e2bb-4255-8caf-4136c566a962",
         {| Routes.id := "3b241101-e2bb-4255-8caf-4136c566a962";
            Routes.createdAt := "2025-01-01T00:00:00.000Z";
            Routes.session_messages := [];
            Routes.session_metadata := [] |})];
     Routes.world := indexed seven_chunks |}.

Definition fresh_state : Routes.AppState (InMemory.World nat) :=
  {| Routes.chatSessions := []; Routes.world := InMemory.healthy_world |}.

End Scenario.

(* ===================================================================== *)
(** * More of JavaScript's strings *)
(* ===================================================================== *)

Module Text.

(** A JavaScript string is a sequence of 16-bit code units. A byte string
    stands for one with every code unit written as the one to three bytes
    of its UTF-8 form (a surrogate as three bytes of its own): ASCII text
    is itself, and every other code unit is a lead byte followed by
    continuation bytes. *)
Definition is_continuation (c : ascii) : bool :=
  let n := nat_of_ascii c in (128 <=? n) && (n <? 192).

Definition unit_bytes (u : N) : string :=
  (if u <? 128 then String (ascii_of_N u) ""
   else if u <? 2048 then
     String (ascii_of_N (192 + u / 64)) (String (ascii_of_N (128 + u mod 64)) "")
   else
     String (ascii_of_N (224 + u / 4096))
       (String (ascii_of_N (128 + (u / 64) mod 64))
          (String (ascii_of_N (128 + u mod 64)) "")))%N.

(** [s.length]: the number of code units. *)
Fixpoint length (s : string) : nat :=
  match s with
  | EmptyString => 0
  | String c rest => (if is_continuation c then 0 else 1) + length rest
  end.

Definition continues (s : string) : bool :=
  match s with
  | EmptyString => false
  | String c _ => is_continuation c
  end.

(** [s.split('')]: the code units of [s], each as a string. *)
Fixpoint units (s : string) : list string :=
  match s with
  | EmptyString => []
  | String c rest =>
      match units rest with
      | u :: us =>
          if continues rest then String c u :: us
          else String c EmptyString :: u :: us
      | [] => [String c EmptyString]
      end
  end.

(** [us.join('')] *)
Definition glue (us : list string) : string := fold_right append "" us.

(** The code units [trim] removes: the WhiteSpace and LineTerminator
    code points of ECMAScript (tab, line feed, vertical tab, form feed,
    carriage return, space, no-break space, the space separators U+1680,
    U+2000 to U+200A, U+202F, U+205F and U+3000, the line and paragraph
    separators U+2028 and U+2029, and the byte order mark U+FEFF). *)
Definition white_space : list N :=
  [9; 10; 11; 12; 13; 32; 160; 5760;
   8192; 8193; 8194; 8195; 8196; 8197; 8198; 8199; 8200; 8201; 8202;
   8232; 8233; 8239; 8287; 12288; 65279]%N.

Definition is_white (u : string) : bool :=
  existsb (fun w => String.eqb u (unit_bytes w)) white_space.

Fixpoint drop_white (us : list string) : list string :=
  match us with
  | [] => []
  | u :: rest => if is_white u then drop_white rest else us
  end.

(** White space leaves the head of the list, then its end. *)
Definition trim_units (us : list string) : list string :=
  List.rev (drop_white (List.rev (drop_white us))).

(** [s.trim()] *)
Definition trim (s : string) : string := glue (trim_units (units s)).

Fixpoint all_continuation (s : string) : bool :=
  match s with
  | EmptyString => true
  | String c rest => is_continuation c && all_continuation rest
  end.

(** The bytes of one code unit: a byte and continuation bytes behind it. *)
Definition one_unit (u : string) : Prop :=
  match u with
  | EmptyString => False
  | String _ rest => all_continuation rest = true
  end.

(** A list of code units as [units] cuts them: behind the first, every
    unit starts with a lead byte. *)
Definition grouped (us : list string) : Prop :=
  match us with
  | [] => True
  | u :: rest => one_unit u /\ Forall (fun v => one_unit v /\ continues v = false) rest
  end.

(** The list does not start with white space. *)
Definition starts_black (us : list string) : Prop :=
  match us with
  | [] => True
  | u :: _ => is_white u = false
  end.

(** [s.split(sep)] for a separator of one ASCII character: never empty. *)
Fixpoint split (sep : ascii) (s : string) : list string :=
  match s with
  | EmptyString => [EmptyString]
  | String c rest =>
      if Ascii.eqb c sep then EmptyString :: split sep rest
      else match split sep rest with
           | [] => [String c EmptyString]
           | piece :: pieces => String c piece :: pieces
           end
  end.

(** [n.toString()] for a non-negative integer. *)
Definition toString (n : nat) : string :=
  NilEmpty.string_of_uint (Nat.to_uint n).

End Text.

(* ===================================================================== *)
(** * The text splitter the code constructs *)
(* ===================================================================== *)

(** [RecursiveCharacterTextSplitter] of [langchain/text_splitter], which
    [uploadDocument] and [utils/splitDocument.js] construct with
    [chunkSize] and [chunkOverlap] only: the separators are the library's
    defaults, separators are kept at the head of the piece they start
    ([keepSeparator] is on) and lengths are string lengths. The methods
    are the library's [splitOnSeparator], [joinDocs], [mergeSplits],
    [_splitText] and [splitText]. *)
Module LangChain.

Definition separators : list string := [Js.LF ++ Js.LF; Js.LF; " "; ""].

(** [text.split(new RegExp(`(?=${separator})`))] on the text after its
    first character: a new piece starts wherever the separator starts. *)
Fixpoint cuts (separator rest : string) : list string :=
  match rest with
  | EmptyString => [EmptyString]
  | String c rest' =>
      let tail := match cuts separator rest' with
                  | piece :: pieces => String c piece :: pieces
                  | [] => [String c EmptyString]
                  end in
      if prefix separator rest then EmptyString :: tail else tail
  end.

(** The regular expression matches no text and is tried at every position;
    a match at the very start of the text splits nothing off. *)
Definition split_before (separator text : string) : list string :=
  match text with
  | EmptyString => [EmptyString]
  | String c rest =>
      match cuts separator rest with
      | piece :: pieces => String c piece :: pieces
      | [] => [String c EmptyString]
      end
  end.

Definition splitOnSeparator (text separator : string) : list string :=
  filter Js.truthy
    (if Js.truthy separator then split_before separator text else Text.units text).

(** [null] is [None]. *)
Definition joinDocs (docs : list string) (separator : string) : option string :=
  let text := Text.trim (Js.join separator docs) in
  if Js.truthy text then Some text else None.

(** What [mergeSplits] adds to [docs] for pieces that it joins into one
    document. *)
Definition one_doc (docs pieces : list string) : list string :=
  match joinDocs pieces "" with
  | Some doc => (docs ++ [doc])%list
  | None => docs
  end.

(** A text as one chunk, if anything is left of it. *)
Definition trimmed (text : string) : list string :=
  if Js.truthy (Text.trim text) then [Text.trim text] else [].

Section Splitter.
Variables chunkSize chunkOverlap : nat.

(** The inner [while] loop of [mergeSplits]: pieces leave the head of
    [currentDoc] until what is left fits the overlap and leaves room for
    the piece of length [_len]. [total] is the summed length of
    [currentDoc], so the loop has stopped when [currentDoc] is empty. *)
Fixpoint shift (_len separator_length : nat) (currentDoc : list string) (total : nat)
    : list string * nat :=
  match currentDoc with
  | [] => ([], total)
  | first :: rest =>
      if (chunkOverlap <? total)
         || ((chunkSize <? total + _len + List.length currentDoc * separator_length)
             && (0 <? total))
      then shift _len separator_length rest (total - Text.length first)
      else (currentDoc, total)
  end.

Fixpoint merge (separator : string) (splits docs currentDoc : list string) (total : nat)
    : list string :=
  match splits with
  | [] =>
      match joinDocs currentDoc separator with
      | Some doc => (docs ++ [doc])%list
      | None => docs
      end
  | d :: splits' =>
      let _len := Text.length d in
      if chunkSize <? total + _len + List.length currentDoc * Text.length separator then
        match currentDoc with
        | [] => merge separator splits' docs [d] (total + _len)
        | _ :: _ =>
            let docs' := match joinDocs currentDoc separator with
                         | Some doc => (docs ++ [doc])%list
                         | None => docs
                         end in
            let (currentDoc', total') :=
              shift _len (Text.length separator) currentDoc total in
            merge separator splits' docs' (currentDoc' ++ [d])%list (total' + _len)
        end
      else merge separator splits' docs (currentDoc ++ [d])%list (total + _len)
  end.

Definition mergeSplits (splits : list string) (separator : string) : list string :=
  merge separator splits [] [] 0.

(** [mergeSplits(goodSplits, '')] where [goodSplits] is not empty. *)
Definition flush (goodSplits : list string) : list string :=
  match goodSplits with
  | [] => []
  | _ :: _ => mergeSplits goodSplits ""
  end.

(** The loop of [_splitText] over the pieces: short pieces gather in
    [goodSplits]; a piece of [chunkSize] or more is split with the
    separators that are left, or kept whole when there are none. *)
Fixpoint gather (deeper : option (string -> list string))
    (splits goodSplits : list string) : list string :=
  match splits with
  | [] => flush goodSplits
  | s :: splits' =>
      if Text.length s <? chunkSize then gather deeper splits' (goodSplits ++ [s])%list
      else (flush goodSplits
            ++ match deeper with
               | Some split_again => split_again s
               | None => [s]
               end
            ++ gather deeper splits' [])%list
  end.

(** [_splitText(text, separators)] for a separator list that ends with the
    empty separator, as [separators] does: the first separator found in
    the text is used, the empty one when none is. *)
Fixpoint _splitText (separators : list string) (text : string) : list string :=
  match separators with
  | [] => gather None (splitOnSeparator text "") []
  | s :: newSeparators =>
      if negb (Js.truthy s) then gather None (splitOnSeparator text s) []
      else if Js.includes s text then
        gather (Some (_splitText newSeparators)) (splitOnSeparator text s) []
      else _splitText newSeparators text
  end.

Definition splitText (text : string) : list string := _splitText separators text.

End Splitter.

(** The splitter of [uploadDocument] and of the script. *)
Definition textSplitter_splitText : string -> list string := splitText 1000 200.

End LangChain.

(* ===================================================================== *)
(** * utils/splitDocument.js *)
(* ===================================================================== *)

Module SplitScript.

(** The metadata object the script attaches to each chunk. *)
Record ChunkMetadata := {
  chunkIndex : nat;
  source : string;
  timestamp : string
}.

(** The three variables the script reads from [process.env]; an unset
    variable is [undefined]. *)
Record Env := {
  SUPABASE_API_KEY : Js.value;
  SUPABASE_PROJECT_URL : Js.value;
  OPENAI_API_KEY : Js.value
}.

(** How a run of the script ends: after the upload, at the early return
    for missing variables (both leave the process to end normally), or in
    the catch block, which prints the error's message and calls
    [process.exit(1)]. *)
Inductive Outcome :=
| UploadComplete
| MissingEnvironment
| Failed (msg : option string).

Definition exit_code (o : Outcome) : nat :=
  match o with
  | UploadComplete | MissingEnvironment => 0
  | Failed _ => 1
  end.

(** [docs.map((chunk, index) => ({chunkIndex: index, source: 'person1.txt',
    timestamp: ...}))], counting from [index]. *)
Fixpoint metadata_from (index : nat) (now : string) (docs : list string)
  : list ChunkMetadata :=
  match docs with
  | [] => []
  | _ :: rest =>
      {| chunkIndex := index; source := "person1.txt"; timestamp := now |}
        :: metadata_from (S index) now rest
  end.

Section Script.
Variable W : Type.
Variable rt : Runtime W.

(** [fs.readFileSync(documentPath, 'utf-8')] *)
Variable readFileSync : M W string.

(** [SupabaseVectorStore.fromTexts(docs, metadata, embeddings, {client,
    tableName: 'documents'})], with the url and the two keys the client and
    the embeddings were made from. *)
Variable fromTexts :
  list string -> list ChunkMetadata -> string -> string -> string -> M W unit.

Definition splitDocument (env : Env) : W -> Outcome * W :=
  fun w =>
    match
      (content <- readFileSync ;;
       let textSplitter :=
         RecursiveCharacterTextSplitter rt {| chunkSize := 1000; chunkOverlap := 200 |} in
       docs <- splitText textSplitter content ;;
       match Js.as_truthy (SUPABASE_API_KEY env),
             Js.as_truthy (SUPABASE_PROJECT_URL env),
             Js.as_truthy (OPENAI_API_KEY env) with
       | Some sbApiKey, Some sbUrl, Some openAIApiKey =>
           fun w1 =>
             let metadata := metadata_from 0 (toISOString_now rt w1) docs in
             (fromTexts docs metadata sbUrl sbApiKey openAIApiKey ;;;
              ret UploadComplete) w1
       | _, _, _ => ret MissingEnvironment
       end) w
    with
    | (Ok outcome, w') => (outcome, w')
    | (Throw error, w') => (Failed (Js.message error), w')
    end.

End Script.

End SplitScript.

(* ===================================================================== *)
(** * frontend/src/services/api.js and the chat view *)
(* ===================================================================== *)

Module Api.

(** What axios rejects with when the status is outside 200..299. *)
Definition AxiosError (status : nat) : Js.Error :=
  {| Js.name := "AxiosError";
     Js.message := Some ("Request failed with status code " ++ Text.toString status) |}.

Definition is_2xx (status : nat) : bool := (200 <=? status) && (status <? 300).

(** The characters that stand for themselves in a URL path: letters,
    digits, [-], [.], [_] and [~]. *)
Definition unreserved (c : ascii) : bool :=
  let n := nat_of_ascii c in
  ((48 <=? n) && (n <=? 57)) || ((65 <=? n) && (n <=? 90))
  || ((97 <=? n) && (n <=? 122))
  || (n =? 45) || (n =? 46) || (n =? 95) || (n =? 126).

Fixpoint all_unreserved (s : string) : bool :=
  match s with
  | EmptyString => true
  | String c rest => unreserved c && all_unreserved rest
  end.

(** A path segment that a URL keeps as it is: not empty, only unreserved
    characters, and not one of the dot segments, which a URL parser
    resolves away. The uuids the server issues are such segments. *)
Definition plain_segment (s : string) : bool :=
  Js.truthy s && all_unreserved s
  && negb (String.eqb s ".") && negb (String.eqb s "..").

Section Client.
Variable W : Type.
Variable rt : Runtime W.
Variable ragService : RAGService W.

(** One request against the backend; [response.data] on a 2xx answer. *)
Definition request (req : Routes.Request) : M (Routes.AppState W) Routes.Body :=
  fun st =>
    match Routes.handle rt ragService req st with
    | (Ok res, st') =>
        if is_2xx (Routes.http_status res) then (Ok (Routes.body res), st')
        else (Throw (AxiosError (Routes.http_status res)), st')
    | (Throw e, st') => (Throw e, st')
    end.

(** [ragApi.chat(message, sessionId)] *)
Definition chat (message sessionId : Js.value) : M (Routes.AppState W) Routes.Body :=
  request (Routes.POST_rag_chat message sessionId).

(** [chatApi.startSession], [sendMessage], [getSession], [endSession] and
    [getSessions] *)
Definition startSession (metadata : option Metadata) : M (Routes.AppState W) Routes.Body :=
  request (Routes.POST_chat_start (Some (Routes.or_empty metadata))).


(** [chatApi.getSession] and [endSession] put the id into the URL as it
    is: [`/chat/session/${sessionId}`]. When the id is a plain path
    segment the server receives it unchanged as [req.params.sessionId];
    any other id makes a URL with another path, a query or a fragment,
    which is not followed here ([None]). *)
Definition getSession (sessionId : string)
    : option (M (Routes.AppState W) Routes.Body) :=
  if plain_segment sessionId then Some (request (Routes.GET_chat_session sessionId))
  else None.


Definition getSessions : M (Routes.AppState W) Routes.Body :=
  request Routes.GET_chat_sessions.

End Client.

End Api.

Module ChatInterface.

(** A message of the chat view; [sources] is present on answers only. *)
Record Message := {
  id : string;
  content : option string;
  type : string;
  timestamp : string;
  sources : option (list RAG.Source)
}.

(** The three state variables of the component. *)
Record State := {
  messages : list Message;
  inputMessage : string;
  isLoading : bool
}.




(** The early return of [handleSendMessage]. *)
Definition refuses (ui : State) : bool :=
  negb (Js.truthy (Text.trim (inputMessage ui))) || isLoading ui.




Section View.
Variable W : Type.
Variable rt : Runtime W.
Variable ragService : RAGService W.


End View.

End ChatInterface.

(* ===================================================================== *)
(** * frontend/src/components/DocumentUpload.jsx *)
(* ===================================================================== *)

Module DocumentUpload.

(** [metadata.tags.split(',').map(tag => tag.trim()).filter(Boolean)] *)
Definition processed_tags (tags : string) : list string :=
  filter Js.truthy (map Text.trim (Text.split ","%char tags)).

(** The guard at the head of [handleSubmit]: nothing is sent when it
    holds. *)
Definition refuses (content : string) : bool :=
  negb (Js.truthy (Text.trim content)).

End DocumentUpload.

(* ===================================================================== *)
(** * Well-formed session maps *)
(* ===================================================================== *)

Module Sessions.

(** A [Map] holds each key once. *)
Definition unique_keys {V} (m : Js.Map V) : Prop := NoDup (map fst m).

(** Every session is stored under its own id. *)
Definition keyed_by_id (m : Js.Map Routes.Session) : Prop :=
  Forall (fun entry => Routes.id (snd entry) = fst entry) m.

Definition well_formed (m : Js.Map Routes.Session) : Prop :=
  unique_keys m /\ keyed_by_id m.

(** The texts of the messages of the session stored under [k]. *)
Definition texts_of (k : string) (m : Js.Map Routes.Session) : option (list string) :=
  option_map (fun s => map Routes.msg_text (Routes.session_messages s)) (Js.get k m).

(** The session after [session.messages.push(messageObj)]. *)
Definition pushed (s : Routes.Session) (messageObj : Routes.MessageObj) : Routes.Session :=
  {| Routes.id := Routes.id s;
     Routes.createdAt := Routes.createdAt s;
     Routes.session_messages := Routes.session_messages s ++ [messageObj];
     Routes.session_metadata := Routes.session_metadata s |}.

(** A client posting the given texts to one session, one request after the
    other. *)
Fixpoint send_all {W} (rt : Runtime W) (ragService : RAGService W) (sessionId : string)
    (texts : list string) (st : Routes.AppState W) : Routes.AppState W :=
  match texts with
  | [] => st
  | t :: rest =>
      send_all rt ragService sessionId rest
        (snd (Routes.handle rt ragService
                (Routes.POST_chat_message (Js.str sessionId) (Js.str t) Js.undefined) st))
  end.

End Sessions.

(* ===================================================================== *)
(** * Status codes *)
(* ===================================================================== *)

Module Status.

Definition codes : list nat := [200; 400; 404; 500].

(** Whenever the computation returns a response, its status is one of
    [codes]. *)
Definition within {St} (m : M St Routes.Response) : Prop :=
  forall st res st', m st = (Ok res, st') -> In (Routes.http_status res) codes.

End Status.

(* ===================================================================== *)
(** * More scenarios *)
(* ===================================================================== *)

Module Cases.


(** The script's file and upload call over the in-memory world. *)
Definition person1_txt : M (InMemory.World nat) string := ret "Alpha Beta. Gamma Delta.".

Definition fromTexts_in_memory (docs : list string)
    (metadata : list SplitScript.ChunkMetadata) (sbUrl sbApiKey openAIApiKey : string)
  : M (InMemory.World nat) unit :=
  addDocuments (InMemory.store InMemory.toy_embed InMemory.toy_similarity)
    (map (fun t => {| pageContent := t; metadata := [("source", "person1.txt")] |}) docs).

Definition full_env : SplitScript.Env :=
  {| SplitScript.SUPABASE_API_KEY := Js.str "service-role-key";
     SplitScript.SUPABASE_PROJECT_URL := Js.str "https://example.supabase.co";
     SplitScript.OPENAI_API_KEY := Js.str "sk-test" |}.

Definition env_without_openai_key : SplitScript.Env :=
  {| SplitScript.SUPABASE_API_KEY := Js.str "service-role-key";
     SplitScript.SUPABASE_PROJECT_URL := Js.str "https://example.supabase.co";
     SplitScript.OPENAI_API_KEY := Js.undefined |}.




End Cases.

(* ===================================================================== *)
(** * Facts about the monad and the service *)
(* ===================================================================== *)

Unset Implicit Arguments.

Lemma search_rethrow_name e : Js.name (Outcome.search_rethrow e) = "Error".
Proof. unfold Outcome.search_rethrow. now destruct (RAG.is_quota e). Qed.

Section ServiceFacts.
Variable W : Type.
Variable rt : Runtime W.
Variable this : RAGService W.

Lemma searchDocuments_null q k w :
  vectorStore this = None ->
  RAG.searchDocuments this q k w =
    (Throw (Js.new_Error "Failed to search documents: Vector store not initialized"), w).
Proof. intros H. unfold RAG.searchDocuments. rewrite H. reflexivity. Qed.

Lemma searchDocuments_ok vs q k w results w1 :
  vectorStore this = Some vs ->
  similaritySearch vs q k w = (Ok results, w1) ->
  RAG.searchDocuments this q k w = (Ok results, w1).
Proof.
  intros Hvs H. unfold RAG.searchDocuments. rewrite Hvs.
  unfold try_catch. now rewrite H.
Qed.

Lemma searchDocuments_throw vs q k w e w1 :
  vectorStore this = Some vs ->
  similaritySearch vs q k w = (Throw e, w1) ->
  RAG.searchDocuments this q k w = (Throw (Outcome.search_rethrow e), w1).
Proof.
  intros Hvs H. unfold RAG.searchDocuments. rewrite Hvs.
  unfold try_catch. rewrite H. unfold Outcome.search_rethrow, RAG.is_quota.
  destruct (Js.message_includes "429" e); [reflexivity |].
  now destruct (Js.message_includes "InsufficientQuotaError" e).
Qed.

Lemma searchDocuments_ok_inv q k w results w1 :
  RAG.searchDocuments this q k w = (Ok results, w1) ->
  exists vs, vectorStore this = Some vs /\
             similaritySearch vs q k w = (Ok results, w1).
Proof.
  destruct (vectorStore this) as [vs |] eqn:Hvs.
  - destruct (similaritySearch vs q k w) as [[r | e] w2] eqn:Hs.
    + rewrite (searchDocuments_ok _ _ _ _ _ _ Hvs Hs). intros [= <- <-]. eauto.
    + rewrite (searchDocuments_throw _ _ _ _ _ _ Hvs Hs). discriminate.
  - rewrite (searchDocuments_null q k w Hvs). discriminate.
Qed.

Lemma searchDocuments_throw_name q k w e w1 :
  RAG.searchDocuments this q k w = (Throw e, w1) -> Js.name e = "Error".
Proof.
  destruct (vectorStore this) as [vs |] eqn:Hvs.
  - destruct (similaritySearch vs q k w) as [[r | e'] w2] eqn:Hs.
    + rewrite (searchDocuments_ok _ _ _ _ _ _ Hvs Hs). discriminate.
    + rewrite (searchDocuments_throw _ _ _ _ _ _ Hvs Hs). intros [= <- _].
      apply search_rethrow_name.
  - rewrite (searchDocuments_null q k w Hvs). now intros [= <- _].
Qed.

Lemma chat_search_ok msg sid w results w1 :
  RAG.searchDocuments this msg 5 w = (Ok results, w1) ->
  RAG.chat this msg sid w =
    Outcome.chat_finish results sid
      (RAG.generatePersonaResponse this msg (RAG.context_of results) w1).
Proof.
  intros H. unfold RAG.chat, try_catch, bind. rewrite H.
  unfold Outcome.chat_finish.
  now destruct (RAG.generatePersonaResponse this msg (RAG.context_of results) w1)
    as [[resp | e] w2].
Qed.

Lemma chat_search_throw msg sid w e w1 :
  RAG.searchDocuments this msg 5 w = (Throw e, w1) ->
  RAG.chat this msg sid w =
    (Throw (Js.new_Error ("Failed to generate response: " ++ Js.tpl (Js.message e))), w1).
Proof.
  intros H. unfold RAG.chat, try_catch, bind. now rewrite H.
Qed.

Lemma directQuery_search_ok q w results w1 :
  RAG.searchDocuments this q 3 w = (Ok results, w1) ->
  RAG.directQuery this q w =
    Outcome.query_finish q results
      (RAG.generatePersonaResponse this q (RAG.context_of results) w1).
Proof.
  intros H. unfold RAG.directQuery, try_catch, bind. rewrite H.
  unfold Outcome.query_finish.
  now destruct (RAG.generatePersonaResponse this q (RAG.context_of results) w1)
    as [[resp | e] w2].
Qed.

Lemma directQuery_search_throw q w e w1 :
  RAG.searchDocuments this q 3 w = (Throw e, w1) ->
  RAG.directQuery this q w =
    (Throw (Js.new_Error ("Failed to process direct query: " ++ Js.tpl (Js.message e))), w1).
Proof.
  intros H. unfold RAG.directQuery, try_catch, bind. now rewrite H.
Qed.

Lemma chat_ok_inv msg sid w r w' :
  RAG.chat this msg sid w = (Ok r, w') ->
  exists vs results w1,
    vectorStore this = Some vs /\
    similaritySearch vs msg 5 w = (Ok results, w1) /\
    RAG.generatePersonaResponse this msg (RAG.context_of results) w1
      = (Ok (RAG.response r), w') /\
    RAG.sources r = map RAG.to_source results /\
    RAG.sessionId r = Js.default_null sid.
Proof.
  destruct (RAG.searchDocuments this msg 5 w) as [[results | e] w1] eqn:Hs.
  - rewrite (chat_search_ok _ sid _ _ _ Hs).
    destruct (RAG.generatePersonaResponse this msg (RAG.context_of results) w1)
      as [[resp | e] w2] eqn:Hg; simpl; [| discriminate].
    intros [= <- <-]. simpl.
    destruct (searchDocuments_ok_inv _ _ _ _ _ Hs) as (vs & Hvs & Hsim).
    exists vs, results, w1. auto.
  - rewrite (chat_search_throw _ sid _ _ _ Hs). discriminate.
Qed.

Lemma directQuery_ok_inv q w r w' :
  RAG.directQuery this q w = (Ok r, w') ->
  exists vs results w1,
    vectorStore this = Some vs /\
    similaritySearch vs q 3 w = (Ok results, w1) /\
    RAG.generatePersonaResponse this q (RAG.context_of results) w1
      = (Ok (RAG.query_response r), w') /\
    RAG.query_sources r = map RAG.to_source results /\
    RAG.query r = q.
Proof.
  destruct (RAG.searchDocuments this q 3 w) as [[results | e] w1] eqn:Hs.
  - rewrite (directQuery_search_ok _ _ _ _ Hs).
    destruct (RAG.generatePersonaResponse this q (RAG.context_of results) w1)
      as [[resp | e] w2] eqn:Hg; simpl; [| discriminate].
    intros [= <- <-]. simpl.
    destruct (searchDocuments_ok_inv _ _ _ _ _ Hs) as (vs & Hvs & Hsim).
    exists vs, results, w1. auto.
  - rewrite (directQuery_search_throw _ _ _ _ Hs). discriminate.
Qed.

Lemma chat_throw_name msg sid w e w' :
  RAG.chat this msg sid w = (Throw e, w') -> Js.name e = "Error".
Proof.
  destruct (RAG.searchDocuments this msg 5 w) as [[results | e'] w1] eqn:Hs.
  - rewrite (chat_search_ok _ sid _ _ _ Hs).
    destruct (RAG.generatePersonaResponse this msg (RAG.context_of results) w1)
      as [[resp | e''] w2]; simpl; [discriminate |].
    now intros [= <- _].
  - rewrite (chat_search_throw _ sid _ _ _ Hs). now intros [= <- _].
Qed.

Lemma getStats_run w :
  RAG.getStats rt this w =
    let (r, w1) := select_count (supabase this) w in
    (Outcome.stats_of this r (toISOString_now rt w1), w1).
Proof.
  unfold RAG.getStats, RAG.getStats_catch, Outcome.stats_of, Outcome.count_failure.
  destruct (select_count (supabase this) w) as [[reply | caught] w1].
  - destruct reply as [c [e |]]; simpl; [reflexivity |].
    now destruct c.
  - now destruct (Js.read_message caught).
Qed.


(** Whatever [getStats] throws is the TypeError of its own catch block. *)
Lemma getStats_throws_TypeError w e w' :
  RAG.getStats rt this w = (Throw e, w') ->
  Js.name e = "TypeError" /\
  Outcome.message_readable (fst (select_count (supabase this) w)) = false.
Proof.
  rewrite getStats_run.
  destruct (select_count (supabase this) w) as [r w1]. simpl fst.
  unfold Outcome.stats_of, Outcome.message_readable.
  destruct (Outcome.count_failure r) as [[| | e0] |]; simpl;
    intros H; inversion H; now split.
Qed.

Lemma getStats_returns w :
  Outcome.message_readable (fst (select_count (supabase this) w)) = true ->
  exists stats w', RAG.getStats rt this w = (Ok stats, w').
Proof.
  intros Hr. destruct (RAG.getStats rt this w) as [[stats | e] w'] eqn:E.
  - now exists stats, w'.
  - apply getStats_throws_TypeError in E. destruct E as [_ E]. congruence.
Qed.

End ServiceFacts.

(* ===================================================================== *)
(** * Quota failures during chat *)
(* ===================================================================== *)


Lemma is_quota_of_quota_message e :
  Js.message e = Some RAG.quota_message -> RAG.is_quota e = false.
Proof.
  intros H. unfold RAG.is_quota, Js.message_includes. rewrite H. reflexivity.
Qed.

(** The error [searchDocuments] throws is never the one it caught. *)
Lemma search_rethrow_fresh e : Outcome.search_rethrow e <> e.
Proof.
  unfold Outcome.search_rethrow. intros H.
  destruct (RAG.is_quota e) eqn:Hq.
  - assert (Hm : Js.message e = Some RAG.quota_message) by now rewrite <- H.
    apply is_quota_of_quota_message in Hm. congruence.
  - assert (Hm : Js.message e
                 = Some ("Failed to search documents: " ++ Js.tpl (Js.message e)))
      by now rewrite <- H at 1.
    destruct (Js.message e) as [m |]; [| discriminate].
    injection Hm as Hm. apply (f_equal String.length) in Hm.
    simpl in Hm. lia.
Qed.

Lemma quota_text_differs m :
  "Failed to generate response: Failed to search documents: " ++ m
    <> "Failed to generate response: " ++ RAG.quota_message.
Proof. simpl. discriminate. Qed.

(** C1, as amended. When the similarity search of [chat] fails with an
    error whose message mentions 429 or InsufficientQuotaError, the
    retrieval layer replaces it by a fresh generic [Error] carrying the
    fixed quota text, and [chat] rejects with a generic [Error] whose
    message is that text behind its own prefix. Every rejection of [chat]
    has the kind [Error]; a provider failure that is not about quota
    differs from the quota case in the message text only. *)
Theorem C1_quota_failure_is_a_generic_Error :
  forall W (this : RAGService W) vs msg sid w e w1,
    vectorStore this = Some vs ->
    similaritySearch vs msg 5 w = (Throw e, w1) ->
    RAG.is_quota e = true ->
    RAG.searchDocuments this msg 5 w
      = (Throw (Js.new_Error RAG.quota_message), w1) /\
    RAG.chat this msg sid w
      = (Throw (Js.new_Error ("Failed to generate response: " ++ RAG.quota_message)), w1) /\
    (forall msg' sid' w' e' w'',
        RAG.chat this msg' sid' w' = (Throw e', w'') -> Js.name e' = "Error") /\
    (forall e0 w0 w2,
        similaritySearch vs msg 5 w0 = (Throw e0, w2) ->
        RAG.is_quota e0 = false ->
        exists m,
          RAG.chat this msg sid w0 = (Throw (Js.new_Error m), w2) /\
          m <> "Failed to generate response: " ++ RAG.quota_message) /\
    (forall e0 w0 w2,
        similaritySearch vs msg 5 w0 = (Throw e0, w2) ->
        exists e',
          RAG.searchDocuments this msg 5 w0 = (Throw e', w2) /\ e' <> e0).
Proof.
  intros W this vs msg sid w e w1 Hvs Hs Hq.
  assert (Hsd : RAG.searchDocuments this msg 5 w
                = (Throw (Js.new_Error RAG.quota_message), w1)).
  { rewrite (searchDocuments_throw _ _ _ _ _ _ _ _ Hvs Hs).
    unfold Outcome.search_rethrow. now rewrite Hq. }
  split; [exact Hsd |]. split.
  - now rewrite (chat_search_throw _ _ _ sid _ _ _ Hsd).
  - split; [| split].
    + intros msg' sid' w' e' w''. apply chat_throw_name.
    + intros e0 w0 w2 Hs0 Hq0.
      exists ("Failed to generate response: Failed to search documents: "
              ++ Js.tpl (Js.message e0)).
      split; [| apply quota_text_differs].
      pose proof (searchDocuments_throw _ _ _ _ _ _ _ _ Hvs Hs0) as Hsd0.
      unfold Outcome.search_rethrow in Hsd0. rewrite Hq0 in Hsd0.
      now rewrite (chat_search_throw _ _ _ sid _ _ _ Hsd0).
    + intros e0 w0 w2 Hs0. exists (Outcome.search_rethrow e0).
      split; [exact (searchDocuments_throw _ _ _ _ _ _ _ _ Hvs Hs0) |].
      apply search_rethrow_fresh.
Qed.

Lemma C1_quota_failure_witness :
  RAG.chat (InMemory.toy_service true) "hello" Js.undefined
           (Scenario.world_with_embedding_failure Scenario.quota_error)
  = (Throw (Js.new_Error ("Failed to generate response: " ++ RAG.quota_message)),
     Scenario.world_with_embedding_failure Scenario.quota_error).
Proof.
  refine (proj1 (proj2
    (C1_quota_failure_is_a_generic_Error
       (InMemory.World nat) (InMemory.toy_service true)
       (InMemory.store InMemory.toy_embed InMemory.toy_similarity)
       "hello" Js.undefined
       (Scenario.world_with_embedding_failure Scenario.quota_error)
       Scenario.quota_error
       (Scenario.world_with_embedding_failure Scenario.quota_error)
       _ _ _))); reflexivity.
Defined.

(** C1 as stated fails. The provider raises an error of the kind
    QuotaExceededError with a 429 message: the retrieval layer does not
    pass it on unchanged, and what [chat] rejects with is not a
    QuotaExceededError but an [Error], the very kind it rejects with when
    the provider fails for another reason. *)
Lemma C1_quota_error_kind_is_lost :
  let w := Scenario.world_with_embedding_failure Scenario.quota_error in
  let w' := Scenario.world_with_embedding_failure Scenario.network_error in
  let this := InMemory.toy_service true in
  similaritySearch (InMemory.store InMemory.toy_embed InMemory.toy_similarity) "hello" 5 w
    = (Throw Scenario.quota_error, w) /\
  fst (RAG.searchDocuments this "hello" 5 w) <> Throw Scenario.quota_error /\
  exists e e',
    fst (RAG.chat this "hello" Js.undefined w) = Throw e /\
    Js.name e <> "QuotaExceededError" /\
    fst (RAG.chat this "hello" Js.undefined w') = Throw e' /\
    Js.name e = Js.name e'.
Proof.
  cbv zeta. split; [reflexivity |]. split.
  - vm_compute. discriminate.
  - eexists. eexists. split; [vm_compute; reflexivity |].
    split; [vm_compute; discriminate |].
    split; [vm_compute; reflexivity | reflexivity].
Qed.

(* ===================================================================== *)
(** * Upload *)
(* ===================================================================== *)

Lemma uploadDocument_run W (rt : Runtime W) (this : RAGService W) content md w :
  RAG.uploadDocument rt this content md w =
    match createDocuments
            (RecursiveCharacterTextSplitter rt {| chunkSize := 1000; chunkOverlap := 200 |})
            [content] [md] w with
    | (Throw e, w1) => (Throw (Outcome.upload_rethrow e), w1)
    | (Ok docs, w1) =>
        match vectorStore this with
        | None => (Ok (Outcome.uploaded docs md), w1)
        | Some vs =>
            match addDocuments vs docs w1 with
            | (Ok _, w2) => (Ok (Outcome.uploaded docs md), w2)
            | (Throw e, w2) => (Throw (Outcome.upload_rethrow e), w2)
            end
        end
    end.
Proof.
  unfold RAG.uploadDocument, try_catch, bind.
  destruct (createDocuments _ [content] [md] w) as [[docs | e] w1]; [| reflexivity].
  destruct (vectorStore this) as [vs |]; [| reflexivity].
  now destruct (addDocuments vs docs w1) as [[[] | e] w2].
Qed.


(** C2, as amended. [uploadDocument] returns [{success: true, chunks: n}]
    only when the splitter produced [n] chunks and either the vector store
    is initialised and [addDocuments] of all [n] chunks returned without
    error, or the vector store is [null], in which case the indexing step
    is skipped. When splitting fails, or [addDocuments] fails, the upload
    rejects and no success is reported. *)
Theorem C2_upload_success_and_failure :
  forall W (rt : Runtime W) (this : RAGService W) content md w,
    let textSplitter :=
      RecursiveCharacterTextSplitter rt {| chunkSize := 1000; chunkOverlap := 200 |} in
    (forall r w',
        RAG.uploadDocument rt this content md w = (Ok r, w') ->
        exists docs w1,
          createDocuments textSplitter [content] [md] w = (Ok docs, w1) /\
          RAG.success r = true /\
          RAG.chunks r = length docs /\
          match vectorStore this with
          | Some vs => addDocuments vs docs w1 = (Ok tt, w')
          | None => w' = w1
          end) /\
    (forall e w1,
        createDocuments textSplitter [content] [md] w = (Throw e, w1) ->
        RAG.uploadDocument rt this content md w
          = (Throw (Outcome.upload_rethrow e), w1)) /\
    (forall docs w1 vs e w2,
        createDocuments textSplitter [content] [md] w = (Ok docs, w1) ->
        vectorStore this = Some vs ->
        addDocuments vs docs w1 = (Throw e, w2) ->
        RAG.uploadDocument rt this content md w
          = (Throw (Outcome.upload_rethrow e), w2)).
Proof.
  intros W rt this content md w textSplitter. subst textSplitter.
  repeat split.
  - intros r w'. rewrite uploadDocument_run.
    destruct (createDocuments _ [content] [md] w) as [[docs | e] w1]; [| discriminate].
    destruct (vectorStore this) as [vs |].
    + destruct (addDocuments vs docs w1) as [[[] | e] w2] eqn:Ha; [| discriminate].
      intros [= <- <-]. exists docs, w1. auto.
    + intros [= <- <-]. exists docs, w1. auto.
  - intros e w1 H. rewrite uploadDocument_run. now rewrite H.
  - intros docs w1 vs e w2 H Hvs Ha. rewrite uploadDocument_run.
    now rewrite H, Hvs, Ha.
Qed.

Lemma C2_upload_witness :
  (exists docs w1,
      createDocuments (InMemory.splitter nat {| chunkSize := 1000; chunkOverlap := 200 |})
                      ["hello"] [[]] InMemory.healthy_world = (Ok docs, w1) /\
      true = true /\
      1 = length docs /\
      addDocuments (InMemory.store InMemory.toy_embed InMemory.toy_similarity) docs w1
        = (Ok tt, InMemory.with_index
                    [InMemory.entry_of InMemory.toy_embed
                       {| pageContent := "hello"; metadata := [] |}]
                    InMemory.healthy_world)) /\
  RAG.uploadDocument InMemory.toy_runtime (InMemory.toy_service true) "   " []
                     InMemory.healthy_world
    = (Throw (Outcome.upload_rethrow Chunker.EmptyInputError), InMemory.healthy_world) /\
  RAG.uploadDocument InMemory.toy_runtime (InMemory.toy_service true) "hello" []
                     (Scenario.world_with_embedding_failure Scenario.network_error)
    = (Throw (Outcome.upload_rethrow Scenario.network_error),
       Scenario.world_with_embedding_failure Scenario.network_error).
Proof.
  split; [| split].
  - exact (proj1 (C2_upload_success_and_failure
                    (InMemory.World nat) InMemory.toy_runtime (InMemory.toy_service true)
                    "hello" [] InMemory.healthy_world)
                 (Outcome.uploaded [{| pageContent := "hello"; metadata := [] |}] [])
                 _ eq_refl).
  - exact (proj1 (proj2 (C2_upload_success_and_failure
                    (InMemory.World nat) InMemory.toy_runtime (InMemory.toy_service true)
                    "   " [] InMemory.healthy_world))
                 Chunker.EmptyInputError _ eq_refl).
  - exact (proj2 (proj2 (C2_upload_success_and_failure
                    (InMemory.World nat) InMemory.toy_runtime (InMemory.toy_service true)
                    "hello" []
                    (Scenario.world_with_embedding_failure Scenario.network_error)))
                 [{| pageContent := "hello"; metadata := [] |}] _
                 (InMemory.store InMemory.toy_embed InMemory.toy_similarity)
                 Scenario.network_error _ eq_refl eq_refl eq_refl).
Defined.

(** C2 as stated fails. With the vector store left uninitialised by the
    constructor, uploading a one-chunk document answers success with
    [chunks: 1] although the index holds nothing afterwards. *)
Lemma C2_success_without_indexing :
  let this := InMemory.toy_service false in
  let run := RAG.uploadDocument InMemory.toy_runtime this "hello" [] InMemory.healthy_world in
  vectorStore this = None /\
  fst run = Ok {| RAG.success := true;
                  RAG.upload_message := "Document uploaded successfully";
                  RAG.chunks := 1;
                  RAG.upload_metadata := [] |} /\
  VectorIndex.count (InMemory.index (snd run)) = 0.
Proof. cbv zeta. repeat split. Qed.

Lemma falsy_as_truthy v : Js.falsy v = true <-> Js.as_truthy v = None.
Proof. destruct v as [| | [| c s]]; simpl; intuition discriminate. Qed.

Lemma rag_upload_run W (rt : Runtime W) (ragService : RAGService W) s md st :
  s <> "" ->
  Routes.rag_upload rt ragService (Js.str s) md st =
    match Routes.call (RAG.uploadDocument rt ragService s (Routes.or_empty md)) st with
    | (Ok r, st') => (Ok (Routes.json (Routes.body_upload r)), st')
    | (Throw e, st') =>
        (Ok (Routes.status_json 500 (Routes.body_error (Js.message e))), st')
    end.
Proof.
  intros Hs. destruct s as [| c s]; [congruence |].
  unfold Routes.rag_upload, try_catch, bind.
  change (Js.as_truthy (Js.str (String c s))) with (Some (String c s)).
  cbv beta iota.
  now destruct (Routes.call _ st) as [[r | e] st'].
Qed.




(* ===================================================================== *)
(** * Statistics and health *)
(* ===================================================================== *)






(* ===================================================================== *)
(** * Sources, top-k and context assembly *)
(* ===================================================================== *)







Section IndexFacts.
Variable Vec : Type.
Variable similarity : Vec -> Vec -> Q.

Lemma insert_ranked_length q (e : VectorIndex.IndexEntry Vec) ranked :
  length (VectorIndex.insert_ranked similarity q e ranked) = S (length ranked).
Proof.
  induction ranked as [| r rest IH]; simpl; [reflexivity |].
  destruct (Qle_bool _ _); simpl; [now rewrite IH | reflexivity].
Qed.

Lemma rank_from_length q (idx acc : list (VectorIndex.IndexEntry Vec)) :
  length (fold_left (fun ranked e => VectorIndex.insert_ranked similarity q e ranked) idx acc)
    = length idx + length acc.
Proof.
  revert acc. induction idx as [| e idx IH]; intros acc; simpl; [reflexivity |].
  rewrite IH, insert_ranked_length. lia.
Qed.

Lemma rank_length q (idx : list (VectorIndex.IndexEntry Vec)) :
  length (VectorIndex.rank similarity q idx) = length idx.
Proof. unfold VectorIndex.rank. rewrite rank_from_length. simpl. lia. Qed.

Lemma search_length q k (idx : list (VectorIndex.IndexEntry Vec)) :
  length (VectorIndex.search similarity q k idx) = Nat.min k (VectorIndex.count idx).
Proof.
  unfold VectorIndex.search, VectorIndex.count.
  now rewrite length_firstn, rank_length.
Qed.

Variable embed : string -> Vec.

Lemma store_search_inv q k (w : InMemory.World Vec) results w1 :
  similaritySearch (InMemory.store embed similarity) q k w = (Ok results, w1) ->
  length results = Nat.min k (VectorIndex.count (InMemory.index w)).
Proof.
  simpl. unfold InMemory.guarded.
  destruct (InMemory.embedding_failure w); [discriminate |].
  destruct (InMemory.index_failure w); [discriminate |].
  intros [= <- _]. now rewrite length_map, search_length.
Qed.

End IndexFacts.

(** C6. [chat] asks the vector store for the top 5 and [directQuery] for
    the top 3, and each returns exactly one source per document the store
    gave back. Over the Vector Index, whatever entries it holds and
    whatever the similarity, the retrieval result is therefore no longer
    than the requested k and no longer than the number of stored
    entries. *)
Theorem C6_top_k_and_result_bounds :
  (forall W (this : RAGService W) msg sid w r w',
      RAG.chat this msg sid w = (Ok r, w') ->
      exists vs results w1,
        vectorStore this = Some vs /\
        similaritySearch vs msg 5 w = (Ok results, w1) /\
        length (RAG.sources r) = length results) /\
  (forall W (this : RAGService W) q w r w',
      RAG.directQuery this q w = (Ok r, w') ->
      exists vs results w1,
        vectorStore this = Some vs /\
        similaritySearch vs q 3 w = (Ok results, w1) /\
        length (RAG.query_sources r) = length results) /\
  (forall Vec (embed : string -> Vec) similarity msg sid (w : InMemory.World Vec) r w',
      RAG.chat (InMemory.service embed similarity true) msg sid w = (Ok r, w') ->
      length (RAG.sources r) <= 5 /\
      length (RAG.sources r) <= VectorIndex.count (InMemory.index w)) /\
  (forall Vec (embed : string -> Vec) similarity q (w : InMemory.World Vec) r w',
      RAG.directQuery (InMemory.service embed similarity true) q w = (Ok r, w') ->
      length (RAG.query_sources r) <= 3 /\
      length (RAG.query_sources r) <= VectorIndex.count (InMemory.index w)).
Proof.
  repeat apply conj.
  - intros W this msg sid w r w' H.
    destruct (chat_ok_inv _ _ _ _ _ _ _ H) as (vs & results & w1 & Hvs & Hs & _ & Hsrc & _).
    exists vs, results, w1. rewrite Hsrc, length_map. auto.
  - intros W this q w r w' H.
    destruct (directQuery_ok_inv _ _ _ _ _ _ H) as (vs & results & w1 & Hvs & Hs & _ & Hsrc & _).
    exists vs, results, w1. rewrite Hsrc, length_map. auto.
  - intros Vec embed similarity msg sid w r w' H.
    destruct (chat_ok_inv _ _ _ _ _ _ _ H) as (vs & results & w1 & Hvs & Hs & _ & Hsrc & _).
    injection Hvs as <-.
    apply store_search_inv in Hs. rewrite Hsrc, length_map, Hs. lia.
  - intros Vec embed similarity q w r w' H.
    destruct (directQuery_ok_inv _ _ _ _ _ _ H) as (vs & results & w1 & Hvs & Hs & _ & Hsrc & _).
    injection Hvs as <-.
    apply store_search_inv in Hs. rewrite Hsrc, length_map, Hs. lia.
Qed.

Lemma C6_bounds_witness :
  (length (RAG.sources Scenario.seven_chat_result) <= 5 /\
   length (RAG.sources Scenario.seven_chat_result)
     <= VectorIndex.count (InMemory.index (Scenario.indexed Scenario.seven_chunks))) /\
  (length (RAG.query_sources Scenario.seven_query_result) <= 3 /\
   length (RAG.query_sources Scenario.seven_query_result)
     <= VectorIndex.count (InMemory.index (Scenario.indexed Scenario.seven_chunks))).
Proof.
  split.
  - apply (proj1 (proj2 (proj2 C6_top_k_and_result_bounds))
             nat InMemory.toy_embed InMemory.toy_similarity "hello" Js.undefined
             (Scenario.indexed Scenario.seven_chunks) Scenario.seven_chat_result
             (Scenario.indexed Scenario.seven_chunks)).
    vm_compute. reflexivity.
  - apply (proj2 (proj2 (proj2 C6_top_k_and_result_bounds))
             nat InMemory.toy_embed InMemory.toy_similarity "hello"
             (Scenario.indexed Scenario.seven_chunks) Scenario.seven_query_result
             (Scenario.indexed Scenario.seven_chunks)).
    vm_compute. reflexivity.
Defined.

Example seven_chat_sources :
  map RAG.content (RAG.sources Scenario.seven_chat_result)
    = ["eeeee"; "dddd"; "ffffff"; "ccc"; "ggggggg"].
Proof. reflexivity. Qed.

Example seven_query_sources :
  map RAG.content (RAG.query_sources Scenario.seven_query_result)
    = ["eeeee"; "dddd"; "ffffff"].
Proof. reflexivity. Qed.

Lemma join_concat sep (xs : list string) : Js.join sep xs = String.concat sep xs.
Proof.
  induction xs as [| x rest IH]; [reflexivity |].
  destruct rest as [| y rest]; [reflexivity |].
  simpl in *. now rewrite IH.
Qed.

Lemma string_app_assoc (a b c : string) : ((a ++ b) ++ c)%string = (a ++ (b ++ c))%string.
Proof. induction a as [| x a IH]; simpl; [reflexivity | now rewrite IH]. Qed.

Lemma join_app sep (xs ys : list string) :
  xs <> [] -> ys <> [] ->
  Js.join sep (xs ++ ys) = (Js.join sep xs ++ sep ++ Js.join sep ys)%string.
Proof.
  intros Hx Hy. induction xs as [| x rest IH]; [congruence |].
  destruct rest as [| x' rest].
  - destruct ys; [congruence | reflexivity].
  - change (Js.join sep ((x :: x' :: rest) ++ ys))
      with (x ++ sep ++ Js.join sep ((x' :: rest) ++ ys))%string.
    rewrite IH by discriminate.
    change (Js.join sep (x :: x' :: rest))
      with (x ++ sep ++ Js.join sep (x' :: rest))%string.
    now rewrite !string_app_assoc.
Qed.

(** C7. Once retrieval has returned, [chat] and [directQuery] hand the
    generator one context string: the texts of the retrieved documents
    joined by a blank line (two line feeds), in exactly the order the
    retriever returned them. The context of a result list that continues
    another is the first context, a blank line, then the second. *)
Theorem C7_context_is_blank_line_join_in_order :
  forall W (this : RAGService W),
    (forall msg sid w results w1,
        RAG.searchDocuments this msg 5 w = (Ok results, w1) ->
        RAG.chat this msg sid w =
          Outcome.chat_finish results sid
            (RAG.generatePersonaResponse this msg
               (String.concat (Js.LF ++ Js.LF) (map pageContent results)) w1)) /\
    (forall q w results w1,
        RAG.searchDocuments this q 3 w = (Ok results, w1) ->
        RAG.directQuery this q w =
          Outcome.query_finish q results
            (RAG.generatePersonaResponse this q
               (String.concat (Js.LF ++ Js.LF) (map pageContent results)) w1)) /\
    (forall first_results more_results : list Document,
        first_results <> [] -> more_results <> [] ->
        RAG.context_of (first_results ++ more_results)
          = (RAG.context_of first_results ++ Js.LF ++ Js.LF
               ++ RAG.context_of more_results)%string) /\
    (forall d, RAG.context_of [d] = pageContent d) /\
    RAG.context_of [] = "".
Proof.
  intros W this. repeat apply conj.
  - intros msg sid w results w1 H.
    rewrite (chat_search_ok _ _ _ sid _ _ _ H).
    unfold RAG.context_of. now rewrite join_concat.
  - intros q w results w1 H.
    rewrite (directQuery_search_ok _ _ _ _ _ _ H).
    unfold RAG.context_of. now rewrite join_concat.
  - intros r1 r2 H1 H2. unfold RAG.context_of. rewrite map_app.
    apply join_app; intros Hnil; apply map_eq_nil in Hnil; congruence.
  - reflexivity.
  - reflexivity.
Qed.

Lemma C7_context_witness :
  RAG.chat (InMemory.toy_service true) "hello" Js.undefined
           (Scenario.indexed ["dddd"; "eeeee"; "ffffff"])
  = (Ok {| RAG.response :=
             RAG.prompt_of RAG.the_persona "hello"
               ("eeeee" ++ Js.LF ++ Js.LF ++ "dddd" ++ Js.LF ++ Js.LF ++ "ffffff");
           RAG.sources :=
             map (fun t => {| RAG.content := t;
                              RAG.source_metadata := [("source", "person1.txt")] |})
                 ["eeeee"; "dddd"; "ffffff"];
           RAG.sessionId := Js.null |},
     Scenario.indexed ["dddd"; "eeeee"; "ffffff"]).
Proof.
  refine (eq_trans
            (proj1 (C7_context_is_blank_line_join_in_order (InMemory.World nat)
                      (InMemory.toy_service true))
                   "hello" Js.undefined (Scenario.indexed ["dddd"; "eeeee"; "ffffff"])
                   (map (fun t => {| pageContent := t;
                                     metadata := [("source", "person1.txt")] |})
                        ["eeeee"; "dddd"; "ffffff"])
                   (Scenario.indexed ["dddd"; "eeeee"; "ffffff"]) _) _);
    vm_compute; reflexivity.
Defined.

(* ===================================================================== *)
(** * Chunking of short documents *)
(* ===================================================================== *)

Lemma string_app_nil_r (a : string) : (a ++ "")%string = a.
Proof. induction a as [| c a IH]; simpl; congruence. Qed.

Lemma glue_units s : Text.glue (Text.units s) = s.
Proof.
  induction s as [| c rest IH]; [reflexivity |].
  cbn [Text.units]. destruct (Text.units rest) as [| u us].
  - simpl in IH. now subst rest.
  - destruct (Text.continues rest); simpl in *; now rewrite IH.
Qed.

Lemma glue_app (a b : list string) :
  Text.glue (a ++ b) = (Text.glue a ++ Text.glue b)%string.
Proof.
  induction a as [| x a IH]; [reflexivity |].
  simpl. now rewrite IH, string_app_assoc.
Qed.

Lemma glue_truthy (l : list string) : Text.glue (filter Js.truthy l) = Text.glue l.
Proof.
  induction l as [| x l IH]; [reflexivity |].
  simpl. destruct x; simpl; now rewrite IH.
Qed.

Lemma join_empty_separator (l : list string) : Js.join "" l = Text.glue l.
Proof.
  induction l as [| x l IH]; [reflexivity |].
  cbn [Js.join Text.glue fold_right]. fold (Text.glue l).
  destruct l as [| y l]; [now rewrite string_app_nil_r |].
  now rewrite <- IH.
Qed.

Lemma text_length_app (a b : string) :
  Text.length (a ++ b) = Text.length a + Text.length b.
Proof. induction a as [| c a IH]; simpl; [reflexivity | rewrite IH; lia]. Qed.

Lemma text_length_glue (l : list string) :
  Text.length (Text.glue l) = list_sum (map Text.length l).
Proof.
  induction l as [| x l IH]; [reflexivity |].
  simpl. now rewrite text_length_app, IH.
Qed.

Lemma glue_with_head c (l : list string) :
  Text.glue (match l with
             | piece :: pieces => String c piece :: pieces
             | [] => [String c ""]
             end) = String c (Text.glue l).
Proof. now destruct l. Qed.

Lemma glue_cuts separator rest : Text.glue (LangChain.cuts separator rest) = rest.
Proof.
  induction rest as [| c rest IH]; [reflexivity |].
  cbn [LangChain.cuts].
  destruct (prefix separator (String c rest)); cbn [Text.glue fold_right append];
    fold (Text.glue (match LangChain.cuts separator rest with
                     | piece :: pieces => String c piece :: pieces
                     | [] => [String c ""]
                     end));
    now rewrite glue_with_head, IH.
Qed.

Lemma glue_splitOnSeparator text separator :
  Text.glue (LangChain.splitOnSeparator text separator) = text.
Proof.
  unfold LangChain.splitOnSeparator. rewrite glue_truthy.
  destruct (Js.truthy separator); [| apply glue_units].
  destruct text as [| c rest]; [reflexivity |].
  unfold LangChain.split_before. now rewrite glue_with_head, glue_cuts.
Qed.

Section SplitterFacts.
Variables chunkSize chunkOverlap : nat.

Lemma merge_fits splits : forall docs currentDoc total,
  total + list_sum (map Text.length splits) <= chunkSize ->
  LangChain.merge chunkSize chunkOverlap "" splits docs currentDoc total
    = LangChain.one_doc docs (currentDoc ++ splits).
Proof.
  induction splits as [| d splits IH]; intros docs currentDoc total Hfit.
  - simpl. now rewrite app_nil_r.
  - cbn [LangChain.merge]. cbv zeta.
    simpl in Hfit. change (Text.length "") with 0. rewrite Nat.mul_0_r, Nat.add_0_r.
    destruct (Nat.ltb_spec chunkSize (total + Text.length d)) as [Hlt | _]; [lia |].
    rewrite IH by lia. now rewrite <- app_assoc.
Qed.

Lemma gather_short deeper splits : forall goodSplits,
  Forall (fun piece => Text.length piece < chunkSize) splits ->
  LangChain.gather chunkSize chunkOverlap deeper splits goodSplits
    = LangChain.flush chunkSize chunkOverlap (goodSplits ++ splits).
Proof.
  induction splits as [| piece splits IH]; intros goodSplits Hshort.
  - simpl. now rewrite app_nil_r.
  - inversion Hshort as [| x l Hpiece Hrest]. subst.
    cbn [LangChain.gather].
    destruct (Nat.ltb_spec (Text.length piece) chunkSize) as [_ | Hge]; [| lia].
    rewrite IH by assumption. now rewrite <- app_assoc.
Qed.

Lemma pieces_are_short (pieces : list string) :
  list_sum (map Text.length pieces) < chunkSize ->
  Forall (fun piece => Text.length piece < chunkSize) pieces.
Proof.
  induction pieces as [| piece pieces IH]; intros H; constructor; simpl in H.
  - lia.
  - apply IH. lia.
Qed.

Lemma gather_of_short_text deeper text separator :
  Text.length text < chunkSize ->
  LangChain.gather chunkSize chunkOverlap deeper
    (LangChain.splitOnSeparator text separator) [] = LangChain.trimmed text.
Proof.
  intros Hshort.
  pose proof (glue_splitOnSeparator text separator) as Hglue.
  set (pieces := LangChain.splitOnSeparator text separator) in *.
  assert (Hsum : list_sum (map Text.length pieces) = Text.length text)
    by now rewrite <- text_length_glue, Hglue.
  rewrite gather_short by (apply pieces_are_short; lia).
  simpl app. unfold LangChain.flush, LangChain.trimmed.
  destruct pieces as [| piece pieces'] eqn:Hp.
  - simpl in Hglue. now subst text.
  - unfold LangChain.mergeSplits. rewrite merge_fits by (simpl in *; lia).
    unfold LangChain.one_doc, LangChain.joinDocs.
    rewrite join_empty_separator.
    change (([] ++ [] ++ piece :: pieces')%list) with (piece :: pieces').
    rewrite Hglue.
    now destruct (Js.truthy (Text.trim text)).
Qed.

Lemma splitText_of_short_text separators text :
  Text.length text < chunkSize ->
  LangChain._splitText chunkSize chunkOverlap separators text = LangChain.trimmed text.
Proof.
  intros Hshort.
  induction separators as [| s newSeparators IH]; cbn [LangChain._splitText].
  - now apply gather_of_short_text.
  - destruct (negb (Js.truthy s)); [now apply gather_of_short_text |].
    destruct (Js.includes s text); [now apply gather_of_short_text | exact IH].
Qed.

End SplitterFacts.

(** C8, as amended. The splitter the code constructs (chunk size 1000,
    overlap 200) turns every input text that is shorter than 1000
    characters and is not empty or white space only into exactly one
    chunk: the document without the white space at its two ends, and so
    the whole document when it neither starts nor ends with white
    space. *)
Theorem C8_short_text_is_one_trimmed_chunk :
  forall text,
    Text.length text < 1000 ->
    Text.trim text <> "" ->
    LangChain.textSplitter_splitText text = [Text.trim text] /\
    List.length (LangChain.textSplitter_splitText text) = 1 /\
    (Text.trim text = text -> LangChain.textSplitter_splitText text = [text]).
Proof.
  intros text Hshort Hfilled.
  assert (Hsplit : LangChain.textSplitter_splitText text = [Text.trim text]).
  { unfold LangChain.textSplitter_splitText, LangChain.splitText.
    rewrite splitText_of_short_text by exact Hshort.
    unfold LangChain.trimmed. destruct (Text.trim text); [contradiction | reflexivity]. }
  rewrite Hsplit. repeat split. now intros ->.
Qed.

Lemma C8_ten_characters_witness :
  LangChain.textSplitter_splitText "0123456789" = ["0123456789"].
Proof.
  refine (proj2 (proj2 (C8_short_text_is_one_trimmed_chunk "0123456789" _ _)) _).
  - simpl. lia.
  - discriminate.
  - reflexivity.
Defined.

(** C8 as stated fails. A document of ten characters, five letters
    between spaces, is shorter than 1000 and is not white space only; it
    is split into one chunk, which is the five letters and not the whole
    document. *)
Lemma C8_padded_short_text_is_trimmed :
  Text.length "  hello   " = 10 /\
  LangChain.textSplitter_splitText "  hello   " = ["hello"] /\
  LangChain.textSplitter_splitText "  hello   " <> ["  hello   "].
Proof. repeat split. discriminate. Qed.

(** Text of white space only, and the empty text, give no chunk. *)
Example split_of_blank_text :
  LangChain.textSplitter_splitText "          " = [] /\
  LangChain.textSplitter_splitText "" = [].
Proof. split; reflexivity. Qed.

(** Longer text: the pieces between the separators are merged up to the
    chunk size, and a new chunk starts with the overlap from the one
    before. *)
Example split_alpha_beta_by_the_library :
  LangChain.splitText 10 2 "Alpha Beta. Gamma Delta."
    = ["Alpha"; "Beta."; "Gamma"; "Delta."].
Proof. reflexivity. Qed.

(** The scenario of section 8 of the design: target size 10, overlap 2. *)
Example split_alpha_beta :
  Chunker.split "Alpha Beta. Gamma Delta." 10 2
    = Ok [{| Chunker.chunk_text := "Alpha "; Chunker.chunkIndex := 0 |};
          {| Chunker.chunk_text := "a Beta. "; Chunker.chunkIndex := 1 |};
          {| Chunker.chunk_text := ". Gamma "; Chunker.chunkIndex := 2 |};
          {| Chunker.chunk_text := "a Delta."; Chunker.chunkIndex := 3 |}].
Proof. reflexivity. Qed.

(* ===================================================================== *)
(** * The session map *)
(* ===================================================================== *)

Section SessionFrame.
Variable W : Type.

Lemma preserves_ret A (a : A) : Routes.preserves W _ (ret a).
Proof. intros st. reflexivity. Qed.

Lemma preserves_throw A e : Routes.preserves W _ (@throw _ A e).
Proof. intros st. reflexivity. Qed.

Lemma preserves_call A (m : M W A) : Routes.preserves W _ (Routes.call m).
Proof. intros st. unfold Routes.call. now destruct (m (Routes.world st)). Qed.

Lemma preserves_bind A B (m : M (Routes.AppState W) A) (k : A -> M (Routes.AppState W) B) :
  Routes.preserves W _ m -> (forall a, Routes.preserves W _ (k a)) -> Routes.preserves W _ (bind m k).
Proof.
  intros Hm Hk st. unfold bind. specialize (Hm st).
  destruct (m st) as [[a | e] st1]; simpl in *; [| exact Hm].
  now rewrite Hk.
Qed.

Lemma preserves_try A (m : M (Routes.AppState W) A) h :
  Routes.preserves W _ m -> (forall e, Routes.preserves W _ (h e)) -> Routes.preserves W _ (try_catch m h).
Proof.
  intros Hm Hh st. unfold try_catch. specialize (Hm st).
  destruct (m st) as [[a | e] st1]; simpl in *; [exact Hm |].
  now rewrite Hh.
Qed.

Lemma blind_ret A (a : A) : Routes.blind W _ (ret a).
Proof. intros st st' H. simpl. auto. Qed.

Lemma blind_call A (m : M W A) : Routes.blind W _ (Routes.call m).
Proof.
  intros st st' H. unfold Routes.call. rewrite H.
  now destruct (m (Routes.world st')).
Qed.

Lemma blind_bind A B (m : M (Routes.AppState W) A) (k : A -> M (Routes.AppState W) B) :
  Routes.blind W _ m -> (forall a, Routes.blind W _ (k a)) -> Routes.blind W _ (bind m k).
Proof.
  intros Hm Hk st st' H. unfold bind. destruct (Hm st st' H) as [Hr Hw].
  destruct (m st) as [r1 st1], (m st') as [r2 st2]. simpl in *. subst r2.
  destruct r1 as [a | e]; [now apply Hk | auto].
Qed.

Lemma blind_try A (m : M (Routes.AppState W) A) h :
  Routes.blind W _ m -> (forall e, Routes.blind W _ (h e)) -> Routes.blind W _ (try_catch m h).
Proof.
  intros Hm Hh st st' H. unfold try_catch. destruct (Hm st st' H) as [Hr Hw].
  destruct (m st) as [r1 st1], (m st') as [r2 st2]. simpl in *. subst r2.
  destruct r1 as [a | e]; [auto | now apply Hh].
Qed.

End SessionFrame.

Ltac frame_step :=
  first [ apply preserves_try | apply preserves_bind | apply preserves_call
        | apply preserves_ret | apply blind_try | apply blind_bind
        | apply blind_call | apply blind_ret ].

Section SessionFacts.
Variable W : Type.
Variable rt : Runtime W.
Variable ragService : RAGService W.

Lemma internal_error_preserves e :
  Routes.preserves W _ (Routes.internal_error (W := W) e).
Proof. apply preserves_ret. Qed.

Lemma internal_error_blind e :
  Routes.blind W _ (Routes.internal_error (W := W) e).
Proof. apply blind_ret. Qed.

Lemma rag_chat_blind message sessionId :
  Routes.blind W _ (Routes.rag_chat ragService message sessionId).
Proof.
  unfold Routes.rag_chat. apply blind_try; [| apply internal_error_blind].
  destruct (Js.as_truthy message); repeat (frame_step; intros).
Qed.

Lemma handle_preserves req :
  Routes.writes_sessions req = false ->
  Routes.preserves W _ (Routes.handle rt ragService req).
Proof.
  destruct req; simpl; try discriminate; intros _.
  - unfold Routes.rag_upload.
    apply preserves_try; [| apply internal_error_preserves].
    destruct (Js.as_truthy content); repeat (frame_step; intros).
  - unfold Routes.rag_chat.
    apply preserves_try; [| apply internal_error_preserves].
    destruct (Js.as_truthy message); repeat (frame_step; intros).
  - unfold Routes.rag_session.
    apply preserves_try; [| apply internal_error_preserves].
    repeat (frame_step; intros).
  - unfold Routes.rag_stats.
    apply preserves_try; [| apply internal_error_preserves].
    repeat (frame_step; intros).
  - unfold Routes.rag_query.
    apply preserves_try; [| apply internal_error_preserves].
    destruct (Js.as_truthy query); repeat (frame_step; intros).
  - unfold Routes.rag_health.
    apply preserves_try; [| apply internal_error_preserves].
    repeat (frame_step; intros).
  - unfold Routes.chat_session, Routes.sessions_get.
    apply preserves_try; [| apply internal_error_preserves].
    apply preserves_bind; [intros st; reflexivity |].
    intros [session |]; apply preserves_ret.
  - unfold Routes.chat_sessions.
    apply preserves_try; [| apply internal_error_preserves].
    intros st. reflexivity.
Qed.

End SessionFacts.

(** C10. [chat] returns its [sessionId] argument unchanged, and [null]
    when the caller leaves it out. No request other than POST /chat/start,
    POST /chat/message and DELETE /chat/session/:id changes the session
    map, and the answer of POST /rag/chat and the world it leaves are the
    same whatever the session map holds: [chat] neither reads nor writes
    it. *)
Theorem C10_chat_passes_sessionId_and_ignores_the_session_map :
  forall W (rt : Runtime W) (ragService : RAGService W),
    (forall message sessionId w r w',
        RAG.chat ragService message sessionId w = (Ok r, w') ->
        RAG.sessionId r = Js.default_null sessionId /\
        (sessionId = Js.undefined -> RAG.sessionId r = Js.null) /\
        (sessionId <> Js.undefined -> RAG.sessionId r = sessionId)) /\
    (forall req st,
        Routes.writes_sessions req = false ->
        Routes.chatSessions (snd (Routes.handle rt ragService req st))
          = Routes.chatSessions st) /\
    (forall message sessionId sessions sessions' w,
        fst (Routes.handle rt ragService (Routes.POST_rag_chat message sessionId)
               {| Routes.chatSessions := sessions; Routes.world := w |})
        = fst (Routes.handle rt ragService (Routes.POST_rag_chat message sessionId)
                 {| Routes.chatSessions := sessions'; Routes.world := w |}) /\
        Routes.world
          (snd (Routes.handle rt ragService (Routes.POST_rag_chat message sessionId)
                  {| Routes.chatSessions := sessions; Routes.world := w |}))
        = Routes.world
            (snd (Routes.handle rt ragService (Routes.POST_rag_chat message sessionId)
                    {| Routes.chatSessions := sessions'; Routes.world := w |}))).
Proof.
  intros W rt ragService. repeat apply conj.
  - intros message sessionId w r w' H.
    destruct (chat_ok_inv _ _ _ _ _ _ _ H) as (_ & _ & _ & _ & _ & _ & _ & Hsid).
    rewrite Hsid. repeat split.
    + now intros ->.
    + now destruct sessionId.
  - intros req st Hw. now apply handle_preserves.
  - intros message sessionId sessions sessions' w. simpl Routes.handle.
    now apply rag_chat_blind.
Qed.

Lemma C10_session_witness :
  (RAG.sessionId Scenario.seven_chat_result = Js.default_null Js.undefined /\
   (Js.undefined = Js.undefined -> RAG.sessionId Scenario.seven_chat_result = Js.null) /\
   (Js.undefined <> Js.undefined ->
    RAG.sessionId Scenario.seven_chat_result = Js.undefined)) /\
  Routes.chatSessions
    (snd (Routes.handle InMemory.toy_runtime (InMemory.toy_service true)
            (Routes.POST_rag_chat (Js.str "hello")
               (Js.str "3b241101-e2bb-4255-8caf-4136c566a962"))
            Scenario.one_session))
  = Routes.chatSessions Scenario.one_session.
Proof.
  pose proof (C10_chat_passes_sessionId_and_ignores_the_session_map
                (InMemory.World nat) InMemory.toy_runtime (InMemory.toy_service true))
    as (Hsid & Hframe & _).
  split.
  - apply (Hsid "hello" Js.undefined (Scenario.indexed Scenario.seven_chunks)
             Scenario.seven_chat_result (Scenario.indexed Scenario.seven_chunks)).
    vm_compute. reflexivity.
  - apply Hframe. reflexivity.
Defined.

(** The three routes of [routes/chat.js] that do write the session map. *)
Example chat_start_adds_a_session :
  Routes.chatSessions
    (snd (Routes.handle InMemory.toy_runtime (InMemory.toy_service true)
            (Routes.POST_chat_start None) Scenario.fresh_state))
  = [("3b241101-e2bb-4255-8caf-4136c566a962",
      {| Routes.id := "3b241101-e2bb-4255-8caf-4136c566a962";
         Routes.createdAt := "2025-01-01T00:00:00.000Z";
         Routes.session_messages := [];
         Routes.session_metadata := [] |})].
Proof. reflexivity. Qed.

Example chat_message_appends_to_the_session :
  map (fun s => map Routes.msg_text (Routes.session_messages s))
      (Js.values
         (Routes.chatSessions
            (snd (Routes.handle InMemory.toy_runtime (InMemory.toy_service true)
                    (Routes.POST_chat_message
                       (Js.str "3b241101-e2bb-4255-8caf-4136c566a962")
                       (Js.str "hello") Js.undefined)
                    Scenario.one_session))))
  = [["hello"]].
Proof. reflexivity. Qed.

Example chat_end_removes_the_session :
  Routes.chatSessions
    (snd (Routes.handle InMemory.toy_runtime (InMemory.toy_service true)
            (Routes.DELETE_chat_session "3b241101-e2bb-4255-8caf-4136c566a962")
            Scenario.one_session))
  = [].
Proof. reflexivity. Qed.

Example chat_echoes_a_given_sessionId :
  match fst (RAG.chat (InMemory.toy_service true) "hello" (Js.str "abc")
               (Scenario.indexed Scenario.seven_chunks)) with
  | Ok r => RAG.sessionId r = Js.str "abc"
  | Throw _ => False
  end.
Proof. vm_compute. reflexivity. Qed.

(* ===================================================================== *)
(** * Scenarios of the design, run on the model *)
(* ===================================================================== *)

(** Three entries of similarity 0.9, 0.5 and 0.1 to the query: the top two
    come back in that order, whatever their insertion order. *)
Example search_ranks_by_similarity :
  map (@VectorIndex.text Q)
      (VectorIndex.search (fun _ v => v) (0 # 1) 2
         [ {| VectorIndex.vector := 1 # 10; VectorIndex.text := "low";
              VectorIndex.entry_metadata := [] |};
           {| VectorIndex.vector := 9 # 10; VectorIndex.text := "high";
              VectorIndex.entry_metadata := [] |};
           {| VectorIndex.vector := 5 # 10; VectorIndex.text := "middle";
              VectorIndex.entry_metadata := [] |} ])
  = ["high"; "middle"].
Proof. reflexivity. Qed.

Example search_keeps_insertion_order_on_ties :
  map (@VectorIndex.text Q)
      (VectorIndex.search (fun _ v => v) (0 # 1) 3
         [ {| VectorIndex.vector := 1 # 2; VectorIndex.text := "first";
              VectorIndex.entry_metadata := [] |};
           {| VectorIndex.vector := 2 # 4; VectorIndex.text := "second";
              VectorIndex.entry_metadata := [] |};
           {| VectorIndex.vector := 1 # 1; VectorIndex.text := "best";
              VectorIndex.entry_metadata := [] |} ])
  = ["best"; "first"; "second"].
Proof. reflexivity. Qed.

Example search_on_empty_index :
  fst (RAG.searchDocuments (InMemory.toy_service true) "hello" 5 InMemory.healthy_world)
  = Ok [].
Proof. reflexivity. Qed.

(** The index backend throws: statistics and health still answer. *)
Example getStats_on_throwing_backend :
  fst (RAG.getStats InMemory.toy_runtime Scenario.service_with_throwing_count
         InMemory.healthy_world)
  = Ok {| RAG.totalDocuments := 0;
          RAG.vectorStoreStatus := "error";
          RAG.stats_error := Some "connect ECONNREFUSED 127.0.0.1:443";
          RAG.stats_timestamp := "2025-01-01T00:00:00.000Z" |}.
Proof. reflexivity. Qed.

Example healthCheck_on_throwing_backend :
  fst (RAG.healthCheck InMemory.toy_runtime Scenario.service_with_throwing_count
         InMemory.healthy_world)
  = Ok {| RAG.status := "healthy";
          RAG.health_vectorStore := Some "error";
          RAG.documents := Some 0;
          RAG.health_error := None;
          RAG.health_timestamp := "2025-01-01T00:00:00.000Z" |}.
Proof. reflexivity. Qed.

Example upload_then_count :
  let w := snd (RAG.uploadDocument InMemory.toy_runtime (InMemory.toy_service true)
                  "hello" [] InMemory.healthy_world) in
  fst (RAG.getStats InMemory.toy_runtime (InMemory.toy_service true) w)
  = Ok {| RAG.totalDocuments := 1;
          RAG.vectorStoreStatus := "active";
          RAG.stats_error := None;
          RAG.stats_timestamp := "2025-01-01T00:00:00.000Z" |}.
Proof. reflexivity. Qed.

(* ===================================================================== *)
(** * The Map of chat sessions *)
(* ===================================================================== *)

Section MapFacts.
Variable V : Type.
Implicit Types (m : Js.Map V) (k : string) (v : V).

Lemma get_set_eq k v m : Js.get k (Js.set k v m) = Some v.
Proof.
  induction m as [| [k' v'] rest IH]; simpl.
  - now rewrite String.eqb_refl.
  - destruct (String.eqb k k') eqn:E; simpl; rewrite ?String.eqb_refl, ?E; auto.
Qed.

Lemma get_set_ne k k' v m : k <> k' -> Js.get k' (Js.set k v m) = Js.get k' m.
Proof.
  intros Hne. induction m as [| [k0 v0] rest IH]; simpl.
  - apply not_eq_sym in Hne. apply String.eqb_neq in Hne. now rewrite Hne.
  - destruct (String.eqb k k0) eqn:E; simpl.
    + apply String.eqb_eq in E. subst k0.
      apply not_eq_sym in Hne. apply String.eqb_neq in Hne. now rewrite Hne.
    + now rewrite IH.
Qed.

Lemma get_delete_ne k k' m : k <> k' -> Js.get k' (Js.delete k m) = Js.get k' m.
Proof.
  intros Hne. induction m as [| [k0 v0] rest IH]; simpl; [reflexivity |].
  destruct (String.eqb k k0) eqn:E; simpl.
  - apply String.eqb_eq in E. subst k0.
    apply not_eq_sym in Hne. apply String.eqb_neq in Hne. now rewrite Hne.
  - now rewrite IH.
Qed.

Lemma get_None_keys k m : Js.get k m = None <-> ~ In k (map fst m).
Proof.
  induction m as [| [k0 v0] rest IH]; simpl; [tauto |].
  destruct (String.eqb_spec k k0) as [-> | Hne].
  - split; [discriminate | tauto].
  - rewrite IH. intuition congruence.
Qed.

Lemma get_delete_eq k m : Sessions.unique_keys m -> Js.get k (Js.delete k m) = None.
Proof.
  unfold Sessions.unique_keys.
  induction m as [| [k0 v0] rest IH]; simpl; intros Hu; [reflexivity |].
  inversion Hu as [| ? ? Hnot Hrest]; subst.
  destruct (String.eqb_spec k k0) as [-> | Hne].
  - now apply get_None_keys.
  - simpl. destruct (String.eqb_spec k k0); [congruence | auto].
Qed.

Lemma set_absent k v m : Js.get k m = None -> Js.set k v m = (m ++ [(k, v)])%list.
Proof.
  induction m as [| [k0 v0] rest IH]; simpl; [reflexivity |].
  destruct (String.eqb k k0); [discriminate |].
  intros H. now rewrite IH.
Qed.

Lemma keys_set_present k v m :
  Js.get k m <> None -> map fst (Js.set k v m) = map fst m.
Proof.
  induction m as [| [k0 v0] rest IH]; simpl; [congruence |].
  destruct (String.eqb_spec k k0) as [-> | Hne]; simpl; [reflexivity |].
  intros H. now rewrite IH.
Qed.

Lemma delete_absent k m : Js.get k m = None -> Js.delete k m = m.
Proof.
  induction m as [| [k0 v0] rest IH]; simpl; [reflexivity |].
  destruct (String.eqb k k0); [discriminate |].
  intros H. now rewrite IH.
Qed.

Lemma keys_delete_subset k m x : In x (map fst (Js.delete k m)) -> In x (map fst m).
Proof.
  induction m as [| [k0 v0] rest IH]; simpl; [tauto |].
  destruct (String.eqb k k0); simpl; tauto.
Qed.

Lemma entries_delete_subset k m e : In e (Js.delete k m) -> In e m.
Proof.
  induction m as [| [k0 v0] rest IH]; simpl; [tauto |].
  destruct (String.eqb k k0); simpl; tauto.
Qed.

Lemma length_delete_present k m :
  Js.get k m <> None -> S (length (Js.delete k m)) = length m.
Proof.
  induction m as [| [k0 v0] rest IH]; simpl; [congruence |].
  destruct (String.eqb k k0); simpl; [reflexivity |].
  intros H. now rewrite IH.
Qed.

Lemma unique_set k v m : Sessions.unique_keys m -> Sessions.unique_keys (Js.set k v m).
Proof.
  unfold Sessions.unique_keys. intros Hu.
  destruct (Js.get k m) eqn:Hg.
  - rewrite keys_set_present by congruence. exact Hu.
  - rewrite set_absent by exact Hg. rewrite map_app. simpl.
    apply NoDup_app; [exact Hu | repeat constructor; simpl; tauto |].
    intros x Hx [<- | []]. now apply get_None_keys in Hg.
Qed.

Lemma unique_delete k m : Sessions.unique_keys m -> Sessions.unique_keys (Js.delete k m).
Proof.
  unfold Sessions.unique_keys.
  induction m as [| [k0 v0] rest IH]; simpl; intros Hu; [constructor |].
  inversion Hu as [| ? ? Hnot Hrest]; subst.
  destruct (String.eqb k k0); simpl; [exact Hrest |].
  constructor; [| auto].
  intros Hin. apply Hnot. eapply keys_delete_subset; eauto.
Qed.

Lemma has_get k m : Js.has k m = true <-> Js.get k m <> None.
Proof. unfold Js.has. destruct (Js.get k m); intuition congruence. Qed.

End MapFacts.

Lemma as_truthy_str (s : string) : s <> "" -> Js.as_truthy (Js.str s) = Some s.
Proof. destruct s; [congruence | reflexivity]. Qed.

Lemma as_truthy_Some v s : Js.as_truthy v = Some s -> v = Js.str s /\ s <> "".
Proof.
  destruct v as [| | [| c r]]; simpl; try discriminate.
  intros [= <-]. split; [reflexivity | discriminate].
Qed.

Section ChatRouteFacts.
Variable W : Type.
Variable rt : Runtime W.
Variable ragService : RAGService W.

Lemma chat_start_run md (st : Routes.AppState W) :
  Routes.chat_start rt md st =
    (Ok (Routes.json
           (Routes.body_started (fst (uuidv4 rt (Routes.world st)))
              "Chat session started successfully"
              {| Routes.id := fst (uuidv4 rt (Routes.world st));
                 Routes.createdAt := toISOString_now rt (snd (uuidv4 rt (Routes.world st)));
                 Routes.session_messages := [];
                 Routes.session_metadata := Routes.or_empty md |})),
     {| Routes.chatSessions :=
          Js.set (fst (uuidv4 rt (Routes.world st)))
            {| Routes.id := fst (uuidv4 rt (Routes.world st));
               Routes.createdAt := toISOString_now rt (snd (uuidv4 rt (Routes.world st)));
               Routes.session_messages := [];
               Routes.session_metadata := Routes.or_empty md |}
            (Routes.chatSessions st);
        Routes.world := snd (uuidv4 rt (Routes.world st)) |}).
Proof.
  unfold Routes.chat_start, try_catch, bind, Routes.fresh_uuid, Routes.now,
    Routes.sessions_set, ret.
  destruct (uuidv4 rt (Routes.world st)) as [u w1]. reflexivity.
Qed.

Lemma chat_message_missing sid msg type (st : Routes.AppState W) :
  Js.as_truthy sid = None \/ Js.as_truthy msg = None ->
  Routes.chat_message rt sid msg type st =
    (Ok (Routes.status_json 400
           (Routes.body_error (Some "Session ID and message are required"))), st).
Proof.
  intros H. unfold Routes.chat_message, try_catch.
  destruct (Js.as_truthy sid), (Js.as_truthy msg); destruct H; try discriminate;
    reflexivity.
Qed.

Lemma chat_message_unknown sid msg type (st : Routes.AppState W) :
  sid <> "" -> msg <> "" ->
  Js.get sid (Routes.chatSessions st) = None ->
  Routes.chat_message rt (Js.str sid) (Js.str msg) type st =
    (Ok (Routes.status_json 404 (Routes.body_error (Some "Chat session not found"))), st).
Proof.
  intros Hs Hm Hg. unfold Routes.chat_message, try_catch, bind, Routes.sessions_get.
  rewrite (as_truthy_str _ Hs), (as_truthy_str _ Hm), Hg. reflexivity.
Qed.

Lemma chat_message_known sid msg type (st : Routes.AppState W) session :
  sid <> "" -> msg <> "" ->
  Js.get sid (Routes.chatSessions st) = Some session ->
  Routes.chat_message rt (Js.str sid) (Js.str msg) type st =
    let messageObj :=
      {| Routes.msg_id := fst (uuidv4 rt (Routes.world st));
         Routes.msg_text := msg;
         Routes.msg_type := match type with Js.undefined => Js.str "user" | _ => type end;
         Routes.msg_timestamp := toISOString_now rt (snd (uuidv4 rt (Routes.world st))) |} in
    (Ok (Routes.json
           (Routes.body_sent "Message sent successfully" messageObj
              (Sessions.pushed session messageObj))),
     {| Routes.chatSessions :=
          Js.set sid (Sessions.pushed session messageObj) (Routes.chatSessions st);
        Routes.world := snd (uuidv4 rt (Routes.world st)) |}).
Proof.
  intros Hs Hm Hg.
  unfold Routes.chat_message, try_catch, bind, Routes.sessions_get, Routes.fresh_uuid,
    Routes.now, Routes.sessions_set, ret.
  rewrite (as_truthy_str _ Hs), (as_truthy_str _ Hm), Hg.
  destruct (uuidv4 rt (Routes.world st)) as [u w1]. reflexivity.
Qed.

Lemma chat_session_run sid (st : Routes.AppState W) :
  Routes.chat_session (W := W) sid st =
    (Ok match Js.get sid (Routes.chatSessions st) with
        | Some session => Routes.json (Routes.body_session session)
        | None => Routes.status_json 404 (Routes.body_error (Some "Chat session not found"))
        end, st).
Proof.
  unfold Routes.chat_session, try_catch, bind, Routes.sessions_get.
  now destruct (Js.get sid (Routes.chatSessions st)).
Qed.

Lemma chat_end_run sid (st : Routes.AppState W) :
  Routes.chat_end (W := W) sid st =
    (Ok match Js.get sid (Routes.chatSessions st) with
        | Some _ => Routes.json (Routes.body_ended "Chat session ended successfully")
        | None => Routes.status_json 404 (Routes.body_error (Some "Chat session not found"))
        end,
     {| Routes.chatSessions := Js.delete sid (Routes.chatSessions st);
        Routes.world := Routes.world st |}).
Proof.
  unfold Routes.chat_end, try_catch, bind, Routes.sessions_delete, Js.has.
  now destruct (Js.get sid (Routes.chatSessions st)).
Qed.

End ChatRouteFacts.

Lemma get_In {V} (k : string) (v : V) (m : Js.Map V) : Js.get k m = Some v -> In (k, v) m.
Proof.
  induction m as [| [k0 v0] rest IH]; simpl; [discriminate |].
  destruct (String.eqb_spec k k0) as [-> | Hne].
  - intros [= ->]. now left.
  - intros H. right. auto.
Qed.

Lemma keyed_get (k : string) s (m : Js.Map Routes.Session) :
  Sessions.keyed_by_id m -> Js.get k m = Some s -> Routes.id s = k.
Proof.
  intros Hk Hg. apply get_In in Hg.
  unfold Sessions.keyed_by_id in Hk. rewrite Forall_forall in Hk.
  exact (Hk _ Hg).
Qed.

Lemma keyed_set (k : string) s (m : Js.Map Routes.Session) :
  Sessions.keyed_by_id m -> Routes.id s = k -> Sessions.keyed_by_id (Js.set k s m).
Proof.
  unfold Sessions.keyed_by_id. intros Hk Hid.
  induction m as [| [k0 s0] rest IH]; simpl.
  - repeat constructor. exact Hid.
  - inversion Hk as [| e l H0 Hrest He]. clear He.
    destruct (String.eqb k k0); constructor; auto.
Qed.

Lemma keyed_delete (k : string) (m : Js.Map Routes.Session) :
  Sessions.keyed_by_id m -> Sessions.keyed_by_id (Js.delete k m).
Proof.
  unfold Sessions.keyed_by_id. rewrite !Forall_forall.
  intros Hk e He. apply Hk. eapply entries_delete_subset; eauto.
Qed.

Lemma well_formed_set (k : string) s (m : Js.Map Routes.Session) :
  Sessions.well_formed m -> Routes.id s = k -> Sessions.well_formed (Js.set k s m).
Proof.
  intros [Hu Hk] Hid. split; [now apply unique_set | now apply keyed_set].
Qed.

(** X1. Every request leaves the session map well formed: each key occurs
    once and every session is stored under its own id. The empty map the
    server starts with is well formed, so every reachable map is. *)
Theorem sessions_stay_well_formed :
  forall W (rt : Runtime W) (ragService : RAGService W) req (st : Routes.AppState W),
    Sessions.well_formed (Routes.chatSessions st) ->
    Sessions.well_formed
      (Routes.chatSessions (snd (Routes.handle rt ragService req st))).
Proof.
  intros W rt ragService req st Hwf.
  destruct (Routes.writes_sessions req) eqn:Hw.
  - destruct req; simpl in Hw; try discriminate; simpl Routes.handle.
    + rewrite chat_start_run. simpl. now apply well_formed_set.
    + destruct (Js.as_truthy sessionId) as [sid |] eqn:Hsid;
        [| rewrite chat_message_missing by auto; exact Hwf].
      destruct (Js.as_truthy message) as [msg |] eqn:Hmsg;
        [| rewrite chat_message_missing by auto; exact Hwf].
      apply as_truthy_Some in Hsid as [-> Hs]. apply as_truthy_Some in Hmsg as [-> Hm].
      destruct (Js.get sid (Routes.chatSessions st)) as [session |] eqn:Hg.
      * rewrite (chat_message_known _ rt _ _ type _ _ Hs Hm Hg). simpl.
        apply well_formed_set; [exact Hwf |].
        simpl. destruct Hwf as [_ Hk]. now apply keyed_get with (m := Routes.chatSessions st).
      * rewrite (chat_message_unknown _ rt _ _ type _ Hs Hm Hg). exact Hwf.
    + rewrite chat_end_run. simpl. destruct Hwf as [Hu Hk].
      split; [now apply unique_delete | now apply keyed_delete].
  - now rewrite (handle_preserves W rt ragService req Hw st).
Qed.

Lemma sessions_stay_well_formed_witness :
  Sessions.well_formed
    (Routes.chatSessions
       (snd (Routes.handle InMemory.toy_runtime (InMemory.toy_service true)
               (Routes.POST_chat_start None) Scenario.fresh_state))).
Proof.
  apply sessions_stay_well_formed.
  split; [constructor | constructor].
Defined.

(** X2. POST /chat/start answers 200 with a session that has the fresh id,
    no messages and the given metadata (none when omitted), and a GET of
    that id right afterwards answers 200 with the same session. Sessions
    under other ids are as before; the new one is last in the map unless
    the id was already in use, in which case it replaces the old session
    in place. *)
Theorem started_session_can_be_fetched :
  forall W (rt : Runtime W) (ragService : RAGService W) md (st : Routes.AppState W),
  exists u session st',
    Routes.handle rt ragService (Routes.POST_chat_start md) st
      = (Ok (Routes.json
               (Routes.body_started u "Chat session started successfully" session)), st') /\
    u = fst (uuidv4 rt (Routes.world st)) /\
    Routes.id session = u /\
    Routes.session_messages session = [] /\
    Routes.session_metadata session = Routes.or_empty md /\
    Routes.handle rt ragService (Routes.GET_chat_session u) st'
      = (Ok (Routes.json (Routes.body_session session)), st') /\
    (forall k, k <> u ->
       Js.get k (Routes.chatSessions st') = Js.get k (Routes.chatSessions st)) /\
    match Js.get u (Routes.chatSessions st) with
    | None => Routes.chatSessions st' = (Routes.chatSessions st ++ [(u, session)])%list
    | Some _ => map fst (Routes.chatSessions st') = map fst (Routes.chatSessions st)
    end.
Proof.
  intros W rt ragService md st. simpl Routes.handle.
  rewrite chat_start_run.
  eexists. eexists. eexists. split; [reflexivity |].
  repeat split.
  - rewrite chat_session_run. simpl. now rewrite get_set_eq.
  - intros k Hk. simpl. apply get_set_ne. congruence.
  - simpl. destruct (Js.get _ (Routes.chatSessions st)) eqn:Hg.
    + apply keys_set_present. congruence.
    + now apply set_absent.
Qed.

Lemma started_session_witness :
  exists u session st',
    Routes.handle InMemory.toy_runtime (InMemory.toy_service true)
      (Routes.POST_chat_start None) Scenario.fresh_state
      = (Ok (Routes.json
               (Routes.body_started u "Chat session started successfully" session)), st') /\
    Routes.handle InMemory.toy_runtime (InMemory.toy_service true)
      (Routes.GET_chat_session u) st'
      = (Ok (Routes.json (Routes.body_session session)), st').
Proof.
  destruct (started_session_can_be_fetched (InMemory.World nat) InMemory.toy_runtime
              (InMemory.toy_service true) None Scenario.fresh_state)
    as (u & session & st' & H1 & _ & _ & _ & _ & H2 & _).
  exists u, session, st'. split; assumption.
Defined.

(** X3. POST /chat/message answers 400 when the session id or the message
    is missing or empty, and 404 when no session has the id; in both cases
    nothing changes: no session is created and no id is drawn. *)
Theorem message_to_no_session_changes_nothing :
  forall W (rt : Runtime W) (ragService : RAGService W) sessionId message type
         (st : Routes.AppState W),
    (Js.falsy sessionId = true \/ Js.falsy message = true ->
     Routes.handle rt ragService (Routes.POST_chat_message sessionId message type) st
       = (Ok (Routes.status_json 400
                (Routes.body_error (Some "Session ID and message are required"))), st)) /\
    (forall sid msg,
        sessionId = Js.str sid -> message = Js.str msg ->
        sid <> "" -> msg <> "" ->
        Js.get sid (Routes.chatSessions st) = None ->
        Routes.handle rt ragService (Routes.POST_chat_message sessionId message type) st
          = (Ok (Routes.status_json 404
                   (Routes.body_error (Some "Chat session not found"))), st)).
Proof.
  intros W rt ragService sessionId message type st. split.
  - intros H. simpl. apply chat_message_missing.
    destruct H as [H | H]; apply falsy_as_truthy in H; auto.
  - intros sid msg -> -> Hs Hm Hg. simpl. now apply chat_message_unknown.
Qed.

Lemma message_to_no_session_witness :
  Routes.handle InMemory.toy_runtime (InMemory.toy_service true)
    (Routes.POST_chat_message Js.undefined (Js.str "hello") Js.undefined)
    Scenario.one_session
  = (Ok (Routes.status_json 400
           (Routes.body_error (Some "Session ID and message are required"))),
     Scenario.one_session) /\
  Routes.handle InMemory.toy_runtime (InMemory.toy_service true)
    (Routes.POST_chat_message (Js.str "no-such-session") (Js.str "hello") Js.undefined)
    Scenario.one_session
  = (Ok (Routes.status_json 404 (Routes.body_error (Some "Chat session not found"))),
     Scenario.one_session).
Proof.
  split.
  - apply (proj1 (message_to_no_session_changes_nothing _ InMemory.toy_runtime
                    (InMemory.toy_service true) Js.undefined (Js.str "hello")
                    Js.undefined Scenario.one_session)).
    left. reflexivity.
  - apply (proj2 (message_to_no_session_changes_nothing _ InMemory.toy_runtime
                    (InMemory.toy_service true) (Js.str "no-such-session")
                    (Js.str "hello") Js.undefined Scenario.one_session)
                 "no-such-session" "hello"); try reflexivity; discriminate.
Defined.

(** X4. A message posted to an existing session is answered with 200 and
    appended at the end of that session's messages, with the posted text
    and the type "user" when none is given; the session keeps its id,
    creation time and metadata, keeps its place in the map, and every other
    session is untouched. *)
Theorem message_is_appended_to_its_session :
  forall W (rt : Runtime W) (ragService : RAGService W) sid msg type
         (st : Routes.AppState W) session,
    sid <> "" -> msg <> "" ->
    Js.get sid (Routes.chatSessions st) = Some session ->
    exists messageObj st',
      Routes.handle rt ragService
        (Routes.POST_chat_message (Js.str sid) (Js.str msg) type) st
        = (Ok (Routes.json
                 (Routes.body_sent "Message sent successfully" messageObj
                    (Sessions.pushed session messageObj))), st') /\
      Routes.msg_text messageObj = msg /\
      Routes.msg_type messageObj
        = match type with Js.undefined => Js.str "user" | _ => type end /\
      Js.get sid (Routes.chatSessions st') = Some (Sessions.pushed session messageObj) /\
      Routes.session_messages (Sessions.pushed session messageObj)
        = (Routes.session_messages session ++ [messageObj])%list /\
      Routes.id (Sessions.pushed session messageObj) = Routes.id session /\
      Routes.createdAt (Sessions.pushed session messageObj) = Routes.createdAt session /\
      Routes.session_metadata (Sessions.pushed session messageObj)
        = Routes.session_metadata session /\
      map fst (Routes.chatSessions st') = map fst (Routes.chatSessions st) /\
      (forall k, k <> sid ->
         Js.get k (Routes.chatSessions st') = Js.get k (Routes.chatSessions st)).
Proof.
  intros W rt ragService sid msg type st session Hs Hm Hg. simpl Routes.handle.
  rewrite (chat_message_known _ rt _ _ type _ _ Hs Hm Hg). cbv zeta.
  eexists. eexists. split; [reflexivity |]. simpl.
  repeat split.
  - apply get_set_eq.
  - apply keys_set_present. congruence.
  - intros k Hk. apply get_set_ne. congruence.
Qed.

Lemma message_is_appended_witness :
  exists messageObj st',
    Routes.handle InMemory.toy_runtime (InMemory.toy_service true)
      (Routes.POST_chat_message (Js.str "3b241101-e2bb-4255-8caf-4136c566a962")
         (Js.str "hello") Js.undefined)
      Scenario.one_session
    = (Ok (Routes.json
             (Routes.body_sent "Message sent successfully" messageObj
                (Sessions.pushed
                   {| Routes.id := "3b241101-e2bb-4255-8caf-4136c566a962";
                      Routes.createdAt := "2025-01-01T00:00:00.000Z";
                      Routes.session_messages := [];
                      Routes.session_metadata := [] |} messageObj))), st') /\
    Routes.msg_text messageObj = "hello".
Proof.
  destruct (message_is_appended_to_its_session _ InMemory.toy_runtime
              (InMemory.toy_service true) "3b241101-e2bb-4255-8caf-4136c566a962"
              "hello" Js.undefined Scenario.one_session
              {| Routes.id := "3b241101-e2bb-4255-8caf-4136c566a962";
                 Routes.createdAt := "2025-01-01T00:00:00.000Z";
                 Routes.session_messages := [];
                 Routes.session_metadata := [] |})
    as (m & st' & H & Ht & _); try discriminate; try reflexivity.
  exists m, st'. split; assumption.
Defined.

(** X5. DELETE /chat/session/:id of an existing session answers 200 and
    removes exactly that session: a GET of the id then answers 404, a
    second DELETE answers 404, one session fewer is stored and all others
    are as before. For an id that has no session it answers 404 and
    changes nothing. *)
Theorem ended_session_is_gone :
  forall W (rt : Runtime W) (ragService : RAGService W) sid (st : Routes.AppState W),
    Sessions.unique_keys (Routes.chatSessions st) ->
    exists res st',
      Routes.handle rt ragService (Routes.DELETE_chat_session sid) st = (Ok res, st') /\
      Routes.world st' = Routes.world st /\
      (forall k, k <> sid ->
         Js.get k (Routes.chatSessions st') = Js.get k (Routes.chatSessions st)) /\
      fst (Routes.handle rt ragService (Routes.GET_chat_session sid) st')
        = Ok (Routes.status_json 404 (Routes.body_error (Some "Chat session not found"))) /\
      fst (Routes.handle rt ragService (Routes.DELETE_chat_session sid) st')
        = Ok (Routes.status_json 404 (Routes.body_error (Some "Chat session not found"))) /\
      match Js.get sid (Routes.chatSessions st) with
      | Some _ =>
          res = Routes.json (Routes.body_ended "Chat session ended successfully") /\
          S (length (Routes.chatSessions st')) = length (Routes.chatSessions st)
      | None =>
          res = Routes.status_json 404 (Routes.body_error (Some "Chat session not found")) /\
          st' = st
      end.
Proof.
  intros W rt ragService sid st Hu. simpl Routes.handle.
  rewrite chat_end_run. eexists. eexists. split; [reflexivity |]. simpl.
  assert (Hgone : Js.get sid (Js.delete sid (Routes.chatSessions st)) = None)
    by now apply get_delete_eq.
  repeat split.
  - intros k Hk. apply get_delete_ne. congruence.
  - rewrite chat_session_run. simpl. now rewrite Hgone.
  - rewrite chat_end_run. simpl. now rewrite Hgone.
  - destruct (Js.get sid (Routes.chatSessions st)) eqn:Hg.
    + split; [reflexivity |]. apply length_delete_present. congruence.
    + split; [reflexivity |]. rewrite delete_absent by exact Hg. now destruct st.
Qed.

Lemma ended_session_witness :
  exists res st',
    Routes.handle InMemory.toy_runtime (InMemory.toy_service true)
      (Routes.DELETE_chat_session "3b241101-e2bb-4255-8caf-4136c566a962")
      Scenario.one_session = (Ok res, st') /\
    fst (Routes.handle InMemory.toy_runtime (InMemory.toy_service true)
           (Routes.GET_chat_session "3b241101-e2bb-4255-8caf-4136c566a962") st')
      = Ok (Routes.status_json 404 (Routes.body_error (Some "Chat session not found"))).
Proof.
  destruct (ended_session_is_gone _ InMemory.toy_runtime (InMemory.toy_service true)
              "3b241101-e2bb-4255-8caf-4136c566a962" Scenario.one_session)
    as (res & st' & H & _ & _ & Hget & _).
  - repeat constructor. simpl. tauto.
  - exists res, st'. split; assumption.
Defined.

(** X6. On a well-formed session map GET /chat/sessions answers 200 with
    one summary per stored session, in the order the sessions were first
    stored; the listed ids are the keys of the map, so no id is listed
    twice, and each summary counts the messages of its session. The
    request changes nothing. *)
Theorem sessions_are_listed_once_in_order :
  forall W (rt : Runtime W) (ragService : RAGService W) (st : Routes.AppState W),
    Sessions.well_formed (Routes.chatSessions st) ->
    exists summaries,
      Routes.handle rt ragService Routes.GET_chat_sessions st
        = (Ok (Routes.json (Routes.body_sessions summaries)), st) /\
      map Routes.sum_id summaries = map fst (Routes.chatSessions st) /\
      NoDup (map Routes.sum_id summaries) /\
      map Routes.sum_messageCount summaries
        = map (fun entry => length (Routes.session_messages (snd entry)))
              (Routes.chatSessions st).
Proof.
  intros W rt ragService st [Hu Hk]. eexists. split; [reflexivity |].
  unfold Js.values. rewrite !map_map.
  assert (Hids : map (fun x => Routes.sum_id (Routes.summary (snd x))) (Routes.chatSessions st)
                 = map fst (Routes.chatSessions st)).
  { apply map_ext_in. intros e He. simpl.
    unfold Sessions.keyed_by_id in Hk. rewrite Forall_forall in Hk. now apply Hk. }
  rewrite Hids. repeat split. exact Hu.
Qed.

Lemma sessions_are_listed_witness :
  exists summaries,
    Routes.handle InMemory.toy_runtime (InMemory.toy_service true)
      Routes.GET_chat_sessions Scenario.one_session
      = (Ok (Routes.json (Routes.body_sessions summaries)), Scenario.one_session) /\
    map Routes.sum_id summaries = ["3b241101-e2bb-4255-8caf-4136c566a962"].
Proof.
  destruct (sessions_are_listed_once_in_order _ InMemory.toy_runtime
              (InMemory.toy_service true) Scenario.one_session)
    as (l & H & Hids & _).
  - split; repeat constructor. simpl. tauto.
  - exists l. split; assumption.
Defined.

Lemma message_step W (rt : Runtime W) (ragService : RAGService W) sid t
    (st : Routes.AppState W) session :
  sid <> "" -> t <> "" ->
  Js.get sid (Routes.chatSessions st) = Some session ->
  exists messageObj,
    snd (Routes.handle rt ragService
           (Routes.POST_chat_message (Js.str sid) (Js.str t) Js.undefined) st)
    = {| Routes.chatSessions :=
           Js.set sid (Sessions.pushed session messageObj) (Routes.chatSessions st);
         Routes.world := snd (uuidv4 rt (Routes.world st)) |} /\
    Routes.msg_text messageObj = t.
Proof.
  intros Hs Ht Hg. simpl Routes.handle.
  rewrite (chat_message_known _ rt _ _ Js.undefined _ _ Hs Ht Hg). cbv zeta.
  eexists. split; reflexivity.
Qed.

Lemma send_all_run W (rt : Runtime W) (ragService : RAGService W) sid texts :
  forall (st : Routes.AppState W) session,
    sid <> "" ->
    Forall (fun t => t <> "") texts ->
    Js.get sid (Routes.chatSessions st) = Some session ->
    exists added,
      map Routes.msg_text added = texts /\
      Js.get sid (Routes.chatSessions (Sessions.send_all rt ragService sid texts st))
        = Some {| Routes.id := Routes.id session;
                  Routes.createdAt := Routes.createdAt session;
                  Routes.session_messages :=
                    (Routes.session_messages session ++ added)%list;
                  Routes.session_metadata := Routes.session_metadata session |} /\
      map fst (Routes.chatSessions (Sessions.send_all rt ragService sid texts st))
        = map fst (Routes.chatSessions st) /\
      (forall k, k <> sid ->
         Js.get k (Routes.chatSessions (Sessions.send_all rt ragService sid texts st))
         = Js.get k (Routes.chatSessions st)).
Proof.
  induction texts as [| t rest IH]; intros st session Hs Hall Hg.
  - exists []. simpl. rewrite app_nil_r. destruct session; auto.
  - inversion Hall as [| ? ? Ht Hrest]; subst.
    destruct (message_step W rt ragService sid t st session Hs Ht Hg)
      as (messageObj & Hrun & Htext).
    cbn [Sessions.send_all].
    specialize (IH (snd (Routes.handle rt ragService
                           (Routes.POST_chat_message (Js.str sid) (Js.str t) Js.undefined) st))
                   (Sessions.pushed session messageObj) Hs Hrest).
    rewrite Hrun in IH |- *. simpl in IH |- *.
    destruct (IH (get_set_eq _ _ _ _)) as (added & IH0 & IH1 & IH2 & IH3).
    exists (messageObj :: added). repeat split.
    + simpl. now rewrite Htext, IH0.
    + rewrite IH1. now rewrite <- app_assoc.
    + rewrite IH2. apply keys_set_present. congruence.
    + intros k Hk. rewrite IH3 by exact Hk. apply get_set_ne. congruence.
Qed.

(** X7. Texts posted one after the other to an existing session are all
    stored, in the order they were posted, behind the messages the session
    already had; the set and order of sessions stay the same and the other
    sessions keep their messages. *)
Theorem posted_texts_are_kept_in_order :
  forall W (rt : Runtime W) (ragService : RAGService W) sid texts
         (st : Routes.AppState W) session,
    sid <> "" ->
    Forall (fun t => t <> "") texts ->
    Js.get sid (Routes.chatSessions st) = Some session ->
    Sessions.texts_of sid
      (Routes.chatSessions (Sessions.send_all rt ragService sid texts st))
      = Some (map Routes.msg_text (Routes.session_messages session) ++ texts)%list /\
    map fst (Routes.chatSessions (Sessions.send_all rt ragService sid texts st))
      = map fst (Routes.chatSessions st) /\
    (forall k, k <> sid ->
       Js.get k (Routes.chatSessions (Sessions.send_all rt ragService sid texts st))
       = Js.get k (Routes.chatSessions st)).
Proof.
  intros W rt ragService sid texts st session Hs Hall Hg.
  destruct (send_all_run W rt ragService sid texts st session Hs Hall Hg)
    as (added & Htexts & Hget & Hkeys & Hothers).
  repeat split; [| exact Hkeys | exact Hothers].
  unfold Sessions.texts_of. rewrite Hget. simpl.
  now rewrite map_app, Htexts.
Qed.

Lemma posted_texts_witness :
  Sessions.texts_of "3b241101-e2bb-4255-8caf-4136c566a962"
    (Routes.chatSessions
       (Sessions.send_all InMemory.toy_runtime (InMemory.toy_service true)
          "3b241101-e2bb-4255-8caf-4136c566a962" ["one"; "two"; "three"]
          Scenario.one_session))
  = Some ["one"; "two"; "three"].
Proof.
  refine (proj1 (posted_texts_are_kept_in_order _ InMemory.toy_runtime
                   (InMemory.toy_service true) "3b241101-e2bb-4255-8caf-4136c566a962"
                   ["one"; "two"; "three"] Scenario.one_session
                   {| Routes.id := "3b241101-e2bb-4255-8caf-4136c566a962";
                      Routes.createdAt := "2025-01-01T00:00:00.000Z";
                      Routes.session_messages := [];
                      Routes.session_metadata := [] |} _ _ _)).
  - discriminate.
  - repeat constructor; discriminate.
  - reflexivity.
Defined.

(* ===================================================================== *)
(** * Generation, and what the operations reject with *)
(* ===================================================================== *)

Section GenerationFacts.
Variable W : Type.
Variable this : RAGService W.


End GenerationFacts.





(** X10. With the vector store left uninitialised, [searchDocuments],
    [chat] and [directQuery] reject for every input without calling any
    collaborator (the world is as before, whatever the OpenAI client would
    do), each with the text "Vector store not initialized" behind the
    prefixes of the operations it passed through; POST /rag/chat then
    answers 500 with that text. *)
Theorem nothing_is_retrieved_without_a_store :
  forall W (rt : Runtime W) (this : RAGService W),
    vectorStore this = None ->
    (forall q k w,
        RAG.searchDocuments this q k w
          = (Throw (Js.new_Error "Failed to search documents: Vector store not initialized"),
             w)) /\
    (forall msg sid w,
        RAG.chat this msg sid w
          = (Throw (Js.new_Error
                      "Failed to generate response: Failed to search documents: Vector store not initialized"),
             w)) /\
    (forall q w,
        RAG.directQuery this q w
          = (Throw (Js.new_Error
                      "Failed to process direct query: Failed to search documents: Vector store not initialized"),
             w)) /\
    (forall msg sid st,
        msg <> "" ->
        Routes.handle rt this (Routes.POST_rag_chat (Js.str msg) sid) st
          = (Ok (Routes.status_json 500
                   (Routes.body_error
                      (Some "Failed to generate response: Failed to search documents: Vector store not initialized"))),
             st)).
Proof.
  intros W rt this Hnull.
  assert (Hchat : forall msg sid w,
             RAG.chat this msg sid w
             = (Throw (Js.new_Error
                         "Failed to generate response: Failed to search documents: Vector store not initialized"),
                w)).
  { intros msg sid w.
    now rewrite (chat_search_throw _ _ _ sid _ _ _ (searchDocuments_null _ this msg 5 w Hnull)). }
  repeat split.
  - intros q k w. now apply searchDocuments_null.
  - exact Hchat.
  - intros q w.
    now rewrite (directQuery_search_throw _ _ _ _ _ _ (searchDocuments_null _ this q 3 w Hnull)).
  - intros msg sid st Hm. simpl Routes.handle.
    unfold Routes.rag_chat, try_catch, bind, Routes.call.
    rewrite (as_truthy_str _ Hm), Hchat. simpl. now destruct st.
Qed.

Lemma nothing_is_retrieved_witness :
  RAG.chat (InMemory.toy_service false) "hello" Js.undefined InMemory.healthy_world
  = (Throw (Js.new_Error
              "Failed to generate response: Failed to search documents: Vector store not initialized"),
     InMemory.healthy_world).
Proof.
  apply (proj1 (proj2 (nothing_is_retrieved_without_a_store _ InMemory.toy_runtime
                         (InMemory.toy_service false) eq_refl))).
Defined.



(* ===================================================================== *)
(** * The routes as a whole *)
(* ===================================================================== *)

Lemma rag_session_run W (rt : Runtime W) (ragService : RAGService W) sid
    (st : Routes.AppState W) :
  Routes.handle rt ragService (Routes.GET_rag_session sid) st
  = (Ok (Routes.json
           (Routes.body_info
              {| RAG.info_id := sid;
                 RAG.info_createdAt := toISOString_now rt (Routes.world st);
                 RAG.messageCount := 0 |})), st).
Proof. destruct st. reflexivity. Qed.

(** X12. GET /rag/session/:id knows nothing of the chat sessions: it
    answers 200 for every id, with the current time as creation time and a
    message count of 0, also for an id that has no chat session and for a
    chat session that has just been posted any number of messages. *)
Theorem rag_session_is_a_placeholder :
  forall W (rt : Runtime W) (ragService : RAGService W) sid texts
         (st : Routes.AppState W) session,
    sid <> "" ->
    Forall (fun t => t <> "") texts ->
    Js.get sid (Routes.chatSessions st) = Some session ->
    let st' := Sessions.send_all rt ragService sid texts st in
    (exists stored,
        Js.get sid (Routes.chatSessions st') = Some stored /\
        length (Routes.session_messages stored)
          = length (Routes.session_messages session) + length texts) /\
    Routes.handle rt ragService (Routes.GET_rag_session sid) st'
      = (Ok (Routes.json
               (Routes.body_info
                  {| RAG.info_id := sid;
                     RAG.info_createdAt := toISOString_now rt (Routes.world st');
                     RAG.messageCount := 0 |})), st') /\
    (forall other,
        Js.get other (Routes.chatSessions st') = None ->
        fst (Routes.handle rt ragService (Routes.GET_rag_session other) st')
          = Ok (Routes.json
                  (Routes.body_info
                     {| RAG.info_id := other;
                        RAG.info_createdAt := toISOString_now rt (Routes.world st');
                        RAG.messageCount := 0 |})) /\
        fst (Routes.handle rt ragService (Routes.GET_chat_session other) st')
          = Ok (Routes.status_json 404
                  (Routes.body_error (Some "Chat session not found")))).
Proof.
  intros W rt ragService sid texts st session Hs Hall Hg st'.
  destruct (send_all_run W rt ragService sid texts st session Hs Hall Hg)
    as (added & Htexts & Hget & _).
  split; [| split].
  - eexists. split; [exact Hget |]. simpl.
    now rewrite length_app, <- Htexts, length_map.
  - apply rag_session_run.
  - intros other Hnone. split.
    + now rewrite rag_session_run.
    + simpl Routes.handle. rewrite chat_session_run. simpl. now rewrite Hnone.
Qed.

Lemma rag_session_witness :
  Routes.handle InMemory.toy_runtime (InMemory.toy_service true)
    (Routes.GET_rag_session "3b241101-e2bb-4255-8caf-4136c566a962")
    (Sessions.send_all InMemory.toy_runtime (InMemory.toy_service true)
       "3b241101-e2bb-4255-8caf-4136c566a962" ["one"; "two"] Scenario.one_session)
  = (Ok (Routes.json
           (Routes.body_info
              {| RAG.info_id := "3b241101-e2bb-4255-8caf-4136c566a962";
                 RAG.info_createdAt := "2025-01-01T00:00:00.000Z";
                 RAG.messageCount := 0 |})),
     Sessions.send_all InMemory.toy_runtime (InMemory.toy_service true)
       "3b241101-e2bb-4255-8caf-4136c566a962" ["one"; "two"] Scenario.one_session).
Proof.
  refine (proj1 (proj2 (rag_session_is_a_placeholder _ InMemory.toy_runtime
                          (InMemory.toy_service true)
                          "3b241101-e2bb-4255-8caf-4136c566a962" ["one"; "two"]
                          Scenario.one_session
                          {| Routes.id := "3b241101-e2bb-4255-8caf-4136c566a962";
                             Routes.createdAt := "2025-01-01T00:00:00.000Z";
                             Routes.session_messages := [];
                             Routes.session_metadata := [] |} _ _ _))).
  - discriminate.
  - repeat constructor; discriminate.
  - reflexivity.
Defined.

Section StatusFacts.
Variable St : Type.

Lemma within_ret (res : Routes.Response) :
  In (Routes.http_status res) Status.codes -> Status.within (St := St) (ret res).
Proof. intros H st res' st' [= <- _]. exact H. Qed.

Lemma within_bind A (m : M St A) (k : A -> M St Routes.Response) :
  (forall a, Status.within (k a)) -> Status.within (bind m k).
Proof.
  intros Hk st res st'. unfold bind.
  destruct (m st) as [[a | e] st1]; [apply Hk | discriminate].
Qed.

Lemma answered (m : M St Routes.Response) (st : St) :
  Status.within m ->
  exists res st',
    try_catch m (fun error => ret (Routes.status_json 500 (Routes.body_error (Js.message error)))) st
      = (Ok res, st') /\
    In (Routes.http_status res) Status.codes.
Proof.
  intros Hm. unfold try_catch. destruct (m st) as [[res | e] st1] eqn:E.
  - exists res, st1. split; [reflexivity | eapply Hm; eauto].
  - eexists. eexists. split; [reflexivity |]. simpl. tauto.
Qed.

End StatusFacts.

Ltac status_step :=
  first [ apply within_bind; intros
        | apply within_ret; simpl; tauto ].

(** X13. No request makes a route handler throw: every handler answers,
    and with one of the statuses 200, 400, 404 and 500, whatever the
    service and its collaborators do. *)
Theorem every_request_is_answered :
  forall W (rt : Runtime W) (ragService : RAGService W) req (st : Routes.AppState W),
  exists res st',
    Routes.handle rt ragService req st = (Ok res, st') /\
    In (Routes.http_status res) [200; 400; 404; 500].
Proof.
  intros W rt ragService req st.
  destruct req; simpl Routes.handle; apply answered.
  - destruct (Js.as_truthy content); repeat status_step.
  - destruct (Js.as_truthy message); repeat status_step.
  - repeat status_step.
  - repeat status_step.
  - destruct (Js.as_truthy query); repeat status_step.
  - repeat status_step.
  - repeat status_step.
  - destruct (Js.as_truthy sessionId), (Js.as_truthy message); repeat status_step.
    destruct a; repeat status_step.
  - repeat status_step. destruct a; repeat status_step.
  - repeat status_step. destruct a; repeat status_step.
  - intros s res st' [= <- _]. simpl. tauto.
Qed.

Lemma chat_throw_prefix W (this : RAGService W) msg sid w e w' :
  RAG.chat this msg sid w = (Throw e, w') ->
  exists m, Js.message e = Some ("Failed to generate response: " ++ m).
Proof.
  destruct (RAG.searchDocuments this msg 5 w) as [[results | e0] w1] eqn:Hs.
  - rewrite (chat_search_ok _ _ _ sid _ _ _ Hs).
    destruct (RAG.generatePersonaResponse this msg (RAG.context_of results) w1)
      as [[r | e1] w2]; simpl; [discriminate |].
    intros [= <- _]. eexists. reflexivity.
  - rewrite (chat_search_throw _ _ _ sid _ _ _ Hs).
    intros [= <- _]. eexists. reflexivity.
Qed.

Lemma directQuery_throw_prefix W (this : RAGService W) q w e w' :
  RAG.directQuery this q w = (Throw e, w') ->
  exists m, Js.message e = Some ("Failed to process direct query: " ++ m).
Proof.
  destruct (RAG.searchDocuments this q 3 w) as [[results | e0] w1] eqn:Hs.
  - rewrite (directQuery_search_ok _ _ _ _ _ _ Hs).
    destruct (RAG.generatePersonaResponse this q (RAG.context_of results) w1)
      as [[r | e1] w2]; simpl; [discriminate |].
    intros [= <- _]. eexists. reflexivity.
  - rewrite (directQuery_search_throw _ _ _ _ _ _ Hs).
    intros [= <- _]. eexists. reflexivity.
Qed.

(** X14. POST /rag/chat answers 400 "Message is required" when the message
    is missing or empty, and POST /rag/query answers 400 "Query is
    required" when the query is, in both cases without calling the service
    or changing any state. For any other message or query the answer is
    200 with the result of [chat] or [directQuery], or 500 with the
    message of the error it rejected with, which starts with the prefix of
    the operation. *)
Theorem chat_and_query_routes_answer :
  forall W (rt : Runtime W) (ragService : RAGService W) (st : Routes.AppState W),
    (forall message sid,
        Js.falsy message = true ->
        Routes.handle rt ragService (Routes.POST_rag_chat message sid) st
          = (Ok (Routes.status_json 400 (Routes.body_error (Some "Message is required"))),
             st)) /\
    (forall query,
        Js.falsy query = true ->
        Routes.handle rt ragService (Routes.POST_rag_query query) st
          = (Ok (Routes.status_json 400 (Routes.body_error (Some "Query is required"))),
             st)) /\
    (forall msg sid,
        msg <> "" ->
        exists res w',
          Routes.handle rt ragService (Routes.POST_rag_chat (Js.str msg) sid) st
            = (Ok res, {| Routes.chatSessions := Routes.chatSessions st;
                          Routes.world := w' |}) /\
          ((exists r,
               RAG.chat ragService msg sid (Routes.world st) = (Ok r, w') /\
               res = Routes.json (Routes.body_chat r)) \/
           (exists e m,
               RAG.chat ragService msg sid (Routes.world st) = (Throw e, w') /\
               Js.message e = Some ("Failed to generate response: " ++ m) /\
               res = Routes.status_json 500
                       (Routes.body_error (Some ("Failed to generate response: " ++ m)))))) /\
    (forall q,
        q <> "" ->
        exists res w',
          Routes.handle rt ragService (Routes.POST_rag_query (Js.str q)) st
            = (Ok res, {| Routes.chatSessions := Routes.chatSessions st;
                          Routes.world := w' |}) /\
          ((exists r,
               RAG.directQuery ragService q (Routes.world st) = (Ok r, w') /\
               res = Routes.json (Routes.body_query r)) \/
           (exists e m,
               RAG.directQuery ragService q (Routes.world st) = (Throw e, w') /\
               Js.message e = Some ("Failed to process direct query: " ++ m) /\
               res = Routes.status_json 500
                       (Routes.body_error (Some ("Failed to process direct query: " ++ m)))))).
Proof.
  intros W rt ragService st. repeat apply conj.
  - intros message sid Hf. apply falsy_as_truthy in Hf. simpl.
    unfold Routes.rag_chat, try_catch. now rewrite Hf.
  - intros query Hf. apply falsy_as_truthy in Hf. simpl.
    unfold Routes.rag_query, try_catch. now rewrite Hf.
  - intros msg sid Hm. simpl Routes.handle.
    unfold Routes.rag_chat, try_catch, bind, Routes.call.
    rewrite (as_truthy_str _ Hm).
    destruct (RAG.chat ragService msg sid (Routes.world st)) as [[r | e] w'] eqn:Hc.
    + exists (Routes.json (Routes.body_chat r)), w'. split; [reflexivity |].
      left. eauto.
    + destruct (chat_throw_prefix _ _ _ _ _ _ _ Hc) as (m & Hmsg).
      eexists. exists w'. split; [reflexivity |].
      right. exists e, m. simpl. rewrite Hmsg. auto.
  - intros q Hq. simpl Routes.handle.
    unfold Routes.rag_query, try_catch, bind, Routes.call.
    rewrite (as_truthy_str _ Hq).
    destruct (RAG.directQuery ragService q (Routes.world st)) as [[r | e] w'] eqn:Hc.
    + exists (Routes.json (Routes.body_query r)), w'. split; [reflexivity |].
      left. eauto.
    + destruct (directQuery_throw_prefix _ _ _ _ _ _ Hc) as (m & Hmsg).
      eexists. exists w'. split; [reflexivity |].
      right. exists e, m. simpl. rewrite Hmsg. auto.
Qed.

Lemma chat_and_query_routes_witness :
  Routes.handle InMemory.toy_runtime (InMemory.toy_service true)
    (Routes.POST_rag_chat (Js.str "") Js.undefined) Scenario.fresh_state
  = (Ok (Routes.status_json 400 (Routes.body_error (Some "Message is required"))),
     Scenario.fresh_state) /\
  Routes.handle InMemory.toy_runtime (InMemory.toy_service true)
    (Routes.POST_rag_query Js.undefined) Scenario.fresh_state
  = (Ok (Routes.status_json 400 (Routes.body_error (Some "Query is required"))),
     Scenario.fresh_state).
Proof.
  pose proof (chat_and_query_routes_answer _ InMemory.toy_runtime
                (InMemory.toy_service true) Scenario.fresh_state) as (Hc & Hq & _).
  split; [apply Hc | apply Hq]; reflexivity.
Defined.

(* ===================================================================== *)
(** * The upload script *)
(* ===================================================================== *)

Lemma metadata_from_indices index now docs :
  map SplitScript.chunkIndex (SplitScript.metadata_from index now docs)
  = seq index (length docs).
Proof.
  revert index. induction docs as [| d rest IH]; intros index; simpl;
    [reflexivity | now rewrite IH].
Qed.

Lemma metadata_from_source index now docs :
  Forall (fun m => SplitScript.source m = "person1.txt" /\ SplitScript.timestamp m = now)
         (SplitScript.metadata_from index now docs).
Proof.
  revert index. induction docs as [| d rest IH]; intros index; simpl;
    constructor; auto.
Qed.

Section ScriptFacts.
Variable W : Type.
Variable rt : Runtime W.
Variable readFileSync : M W string.
Variable fromTexts :
  list string -> list SplitScript.ChunkMetadata -> string -> string -> string -> M W unit.

Lemma script_after_split env w content w1 docs w2 :
  readFileSync w = (Ok content, w1) ->
  splitText (RecursiveCharacterTextSplitter rt {| chunkSize := 1000; chunkOverlap := 200 |})
            content w1 = (Ok docs, w2) ->
  SplitScript.splitDocument rt readFileSync fromTexts env w =
    match Js.as_truthy (SplitScript.SUPABASE_API_KEY env),
          Js.as_truthy (SplitScript.SUPABASE_PROJECT_URL env),
          Js.as_truthy (SplitScript.OPENAI_API_KEY env) with
    | Some sbApiKey, Some sbUrl, Some openAIApiKey =>
        match fromTexts docs (SplitScript.metadata_from 0 (toISOString_now rt w2) docs)
                sbUrl sbApiKey openAIApiKey w2 with
        | (Ok _, w3) => (SplitScript.UploadComplete, w3)
        | (Throw e, w3) => (SplitScript.Failed (Js.message e), w3)
        end
    | _, _, _ => (SplitScript.MissingEnvironment, w2)
    end.
Proof.
  intros Hr Hs. unfold SplitScript.splitDocument, bind. rewrite Hr, Hs.
  destruct (Js.as_truthy (SplitScript.SUPABASE_API_KEY env));
    destruct (Js.as_truthy (SplitScript.SUPABASE_PROJECT_URL env));
    destruct (Js.as_truthy (SplitScript.OPENAI_API_KEY env)); try reflexivity.
  now destruct (fromTexts _ _ _ _ _ w2) as [[[] | e] w3].
Qed.

End ScriptFacts.

(** X15. When one of SUPABASE_API_KEY, SUPABASE_PROJECT_URL and
    OPENAI_API_KEY is unset or empty, the script returns early after it
    has read and split the document: nothing is uploaded, whatever the
    upload call would do, and the process ends normally with exit code
    0. *)
Theorem script_uploads_nothing_without_its_environment :
  forall W (rt : Runtime W) readFileSync fromTexts env w content w1 docs w2,
    readFileSync w = (Ok content, w1) ->
    splitText (RecursiveCharacterTextSplitter rt {| chunkSize := 1000; chunkOverlap := 200 |})
              content w1 = (Ok docs, w2) ->
    Js.falsy (SplitScript.SUPABASE_API_KEY env) = true \/
    Js.falsy (SplitScript.SUPABASE_PROJECT_URL env) = true \/
    Js.falsy (SplitScript.OPENAI_API_KEY env) = true ->
    SplitScript.splitDocument rt readFileSync fromTexts env w
      = (SplitScript.MissingEnvironment, w2) /\
    SplitScript.exit_code
      (fst (SplitScript.splitDocument rt readFileSync fromTexts env w)) = 0.
Proof.
  intros W rt readFileSync fromTexts env w content w1 docs w2 Hr Hs Hmissing.
  assert (H : SplitScript.splitDocument rt readFileSync fromTexts env w
              = (SplitScript.MissingEnvironment, w2)).
  { rewrite (script_after_split W rt readFileSync fromTexts env w content w1 docs w2 Hr Hs).
    destruct Hmissing as [H | [H | H]]; apply falsy_as_truthy in H; rewrite H;
      repeat match goal with
             | |- context [match Js.as_truthy ?v with _ => _ end] =>
                 destruct (Js.as_truthy v)
             end; reflexivity. }
  split; [exact H | now rewrite H].
Qed.

Lemma script_without_environment_witness :
  SplitScript.splitDocument InMemory.toy_runtime Cases.person1_txt
    Cases.fromTexts_in_memory Cases.env_without_openai_key InMemory.healthy_world
  = (SplitScript.MissingEnvironment, InMemory.healthy_world).
Proof.
  refine (proj1 (script_uploads_nothing_without_its_environment _ InMemory.toy_runtime
                   Cases.person1_txt Cases.fromTexts_in_memory
                   Cases.env_without_openai_key InMemory.healthy_world
                   "Alpha Beta. Gamma Delta." InMemory.healthy_world
                   ["Alpha Beta. Gamma Delta."] InMemory.healthy_world _ _ _)).
  - reflexivity.
  - reflexivity.
  - right. right. reflexivity.
Defined.

(** X16. With all three variables set, the script passes to the upload
    call every chunk the splitter returned, in order, together with one
    metadata object per chunk: the i-th has chunkIndex i (from 0) and
    source "person1.txt". The run ends with "Upload complete" when that
    call returns, and in the catch block, with the error's message and
    exit code 1, when it throws. *)
Theorem script_uploads_every_chunk_numbered :
  forall W (rt : Runtime W) readFileSync fromTexts env w content w1 docs w2
         sbApiKey sbUrl openAIApiKey,
    readFileSync w = (Ok content, w1) ->
    splitText (RecursiveCharacterTextSplitter rt {| chunkSize := 1000; chunkOverlap := 200 |})
              content w1 = (Ok docs, w2) ->
    Js.as_truthy (SplitScript.SUPABASE_API_KEY env) = Some sbApiKey ->
    Js.as_truthy (SplitScript.SUPABASE_PROJECT_URL env) = Some sbUrl ->
    Js.as_truthy (SplitScript.OPENAI_API_KEY env) = Some openAIApiKey ->
    exists metadata,
      length metadata = length docs /\
      map SplitScript.chunkIndex metadata = seq 0 (length docs) /\
      Forall (fun m => SplitScript.source m = "person1.txt") metadata /\
      SplitScript.splitDocument rt readFileSync fromTexts env w
        = match fromTexts docs metadata sbUrl sbApiKey openAIApiKey w2 with
          | (Ok _, w3) => (SplitScript.UploadComplete, w3)
          | (Throw e, w3) => (SplitScript.Failed (Js.message e), w3)
          end /\
      (forall e w3,
          fromTexts docs metadata sbUrl sbApiKey openAIApiKey w2 = (Throw e, w3) ->
          SplitScript.exit_code
            (fst (SplitScript.splitDocument rt readFileSync fromTexts env w)) = 1).
Proof.
  intros W rt readFileSync fromTexts env w content w1 docs w2 sbApiKey sbUrl openAIApiKey
         Hr Hs Hk Hu Ho.
  exists (SplitScript.metadata_from 0 (toISOString_now rt w2) docs).
  pose proof (script_after_split W rt readFileSync fromTexts env w content w1 docs w2 Hr Hs)
    as Hrun.
  rewrite Hk, Hu, Ho in Hrun.
  repeat split.
  - rewrite <- (length_map SplitScript.chunkIndex), metadata_from_indices.
    apply length_seq.
  - apply metadata_from_indices.
  - eapply Forall_impl; [| apply metadata_from_source]. simpl. tauto.
  - exact Hrun.
  - intros e w3 He. rewrite Hrun, He. reflexivity.
Qed.

Lemma script_uploads_witness :
  exists metadata,
    map SplitScript.chunkIndex metadata = [0] /\
    SplitScript.splitDocument InMemory.toy_runtime Cases.person1_txt
      Cases.fromTexts_in_memory Cases.full_env InMemory.healthy_world
    = match Cases.fromTexts_in_memory ["Alpha Beta. Gamma Delta."] metadata
              "https://example.supabase.co" "service-role-key" "sk-test"
              InMemory.healthy_world with
      | (Ok _, w3) => (SplitScript.UploadComplete, w3)
      | (Throw e, w3) => (SplitScript.Failed (Js.message e), w3)
      end.
Proof.
  destruct (script_uploads_every_chunk_numbered _ InMemory.toy_runtime
              Cases.person1_txt Cases.fromTexts_in_memory Cases.full_env
              InMemory.healthy_world "Alpha Beta. Gamma Delta." InMemory.healthy_world
              ["Alpha Beta. Gamma Delta."] InMemory.healthy_world
              "service-role-key" "https://example.supabase.co" "sk-test"
              eq_refl eq_refl eq_refl eq_refl eq_refl)
    as (metadata & _ & Hidx & _ & Hrun & _).
  exists metadata. split; assumption.
Defined.

Ltac script_cases H :=
  destruct H as [H | [H | H]];
  repeat match goal with
         | H : exists _, _ |- _ => destruct H
         | H : _ /\ _ |- _ => destruct H
         end;
  congruence.

(** X17. The script ends with exit code 1 exactly when something threw:
    reading the file, splitting its text, or, with the environment
    complete, the upload call. A missing environment variable alone never
    makes it fail. *)
Theorem script_exits_with_1_exactly_on_a_throw :
  forall W (rt : Runtime W) readFileSync fromTexts env w,
    SplitScript.exit_code (fst (SplitScript.splitDocument rt readFileSync fromTexts env w)) = 1
    <->
    ((exists e w1, readFileSync w = (Throw e, w1)) \/
     (exists content w1 e w2,
         readFileSync w = (Ok content, w1) /\
         splitText (RecursiveCharacterTextSplitter rt
                      {| chunkSize := 1000; chunkOverlap := 200 |}) content w1
           = (Throw e, w2)) \/
     (exists content w1 docs w2 sbApiKey sbUrl openAIApiKey e w3,
         readFileSync w = (Ok content, w1) /\
         splitText (RecursiveCharacterTextSplitter rt
                      {| chunkSize := 1000; chunkOverlap := 200 |}) content w1
           = (Ok docs, w2) /\
         Js.as_truthy (SplitScript.SUPABASE_API_KEY env) = Some sbApiKey /\
         Js.as_truthy (SplitScript.SUPABASE_PROJECT_URL env) = Some sbUrl /\
         Js.as_truthy (SplitScript.OPENAI_API_KEY env) = Some openAIApiKey /\
         fromTexts docs (SplitScript.metadata_from 0 (toISOString_now rt w2) docs)
           sbUrl sbApiKey openAIApiKey w2 = (Throw e, w3))).
Proof.
  intros W rt readFileSync fromTexts env w.
  destruct (readFileSync w) as [[content | e] w1] eqn:Hr.
  - destruct (splitText (RecursiveCharacterTextSplitter rt
                           {| chunkSize := 1000; chunkOverlap := 200 |}) content w1)
      as [[docs | e] w2] eqn:Hs.
    + rewrite (script_after_split W rt readFileSync fromTexts env w content w1 docs w2 Hr Hs).
      destruct (Js.as_truthy (SplitScript.SUPABASE_API_KEY env)) as [k |] eqn:Hk;
        destruct (Js.as_truthy (SplitScript.SUPABASE_PROJECT_URL env)) as [u |] eqn:Hu;
        destruct (Js.as_truthy (SplitScript.OPENAI_API_KEY env)) as [o |] eqn:Ho;
        try (split; [discriminate | intros H; exfalso; script_cases H]).
      destruct (fromTexts docs _ u k o w2) as [[[] | e] w3] eqn:Hf; simpl.
      * split; [discriminate | intros H; exfalso; script_cases H].
      * split; [intros _ | reflexivity].
        right. right. exists content, w1, docs, w2, k, u, o, e, w3.
        repeat split; assumption || reflexivity.
    + unfold SplitScript.splitDocument, bind. rewrite Hr, Hs. simpl.
      split; [intros _ | reflexivity].
      right. left. exists content, w1, e, w2. split; assumption || reflexivity.
  - unfold SplitScript.splitDocument, bind. rewrite Hr. simpl.
    split; [intros _ | reflexivity]. left. eauto.
Qed.

Lemma script_exit_witness :
  SplitScript.exit_code
    (fst (SplitScript.splitDocument InMemory.toy_runtime (ret "   ")
            Cases.fromTexts_in_memory Cases.full_env InMemory.healthy_world)) = 1.
Proof.
  apply (proj2 (script_exits_with_1_exactly_on_a_throw _ InMemory.toy_runtime (ret "   ")
                  Cases.fromTexts_in_memory Cases.full_env InMemory.healthy_world)).
  right. left.
  exists "   ", InMemory.healthy_world, Chunker.EmptyInputError, InMemory.healthy_world.
  split; reflexivity.
Defined.

(* ===================================================================== *)
(** * The frontend *)
(* ===================================================================== *)

Lemma units_cons c rest :
  Text.units (String c rest)
  = match Text.units rest with
    | u :: us =>
        if Text.continues rest then String c u :: us else String c "" :: u :: us
    | [] => [String c ""]
    end.
Proof. reflexivity. Qed.

Lemma grouped_units s : Text.grouped (Text.units s).
Proof.
  induction s as [| c rest IH]; [exact I |].
  rewrite units_cons. pose proof (glue_units rest) as Hglue.
  destruct (Text.units rest) as [| u us]; [split; [reflexivity | constructor] |].
  destruct IH as [Hu Hus].
  assert (Hc : Text.continues rest = Text.continues u).
  { rewrite <- Hglue. destruct u; [destruct Hu | reflexivity]. }
  destruct (Text.continues rest).
  - split; [| exact Hus].
    destruct u as [| d u']; [destruct Hu |].
    simpl in *. now rewrite <- Hc, Hu.
  - split; [reflexivity |].
    constructor; [split; [exact Hu | now rewrite <- Hc] | exact Hus].
Qed.

Lemma units_of_one_unit conts : forall c t,
  Text.all_continuation conts = true ->
  Text.continues t = false ->
  Text.units (String c (conts ++ t)) = String c conts :: Text.units t.
Proof.
  induction conts as [| d conts IH]; intros c t Hall Ht.
  - simpl append. rewrite units_cons, Ht. now destruct (Text.units t).
  - simpl in Hall. apply andb_true_iff in Hall as [Hd Hall].
    change (String c (String d conts ++ t)) with (String c (String d (conts ++ t))).
    rewrite units_cons, (IH d t Hall Ht).
    simpl Text.continues. now rewrite Hd.
Qed.

Lemma grouped_tail u rest :
  Text.grouped (u :: rest) ->
  Text.grouped rest /\ Text.continues (Text.glue rest) = false.
Proof.
  intros [_ Hrest]. destruct rest as [| v rest]; [now split |].
  inversion Hrest as [| x l [Hv Hc] Hl]. subst. split; [now split |].
  destruct v; [destruct Hv | exact Hc].
Qed.

Lemma units_glue us : Text.grouped us -> Text.units (Text.glue us) = us.
Proof.
  induction us as [| u us IH]; intros H; [reflexivity |].
  destruct (grouped_tail _ _ H) as [Hus Hc].
  destruct u as [| c conts]; [now destruct H |].
  destruct H as [Hu _].
  change (Text.glue (String c conts :: us))
    with (String c (conts ++ Text.glue us)).
  now rewrite (units_of_one_unit conts c _ Hu Hc), IH.
Qed.

Lemma grouped_app_l (a b : list string) : Text.grouped (a ++ b) -> Text.grouped a.
Proof.
  destruct a as [| u a]; [easy |].
  intros [Hu H]. split; [exact Hu |].
  apply Forall_app in H. tauto.
Qed.

Lemma grouped_app_r (a b : list string) : Text.grouped (a ++ b) -> Text.grouped b.
Proof.
  destruct a as [| u a]; [easy |].
  intros [_ H]. apply Forall_app in H as [_ H].
  destruct b as [| v b]; [exact I |].
  inversion H as [| x l [Hv _] Hl]. now split.
Qed.

Lemma drop_white_split us : exists pre, us = (pre ++ Text.drop_white us)%list.
Proof.
  induction us as [| u us [pre IH]]; [now exists [] |].
  simpl. destruct (Text.is_white u); [| now exists []].
  exists (u :: pre). simpl. now rewrite <- IH.
Qed.

Lemma drop_white_starts_black us : Text.starts_black (Text.drop_white us).
Proof.
  induction us as [| u us IH]; [exact I |].
  simpl. destruct (Text.is_white u) eqn:E; [exact IH | exact E].
Qed.

Lemma drop_white_fixed us : Text.starts_black us -> Text.drop_white us = us.
Proof. destruct us as [| u us]; [easy |]. simpl. now intros ->. Qed.

Lemma starts_black_app_l (a b : list string) :
  Text.starts_black (a ++ b) -> Text.starts_black a.
Proof. now destruct a. Qed.

(** What [trim] keeps lies within the text. *)
Lemma trim_units_within us :
  exists pre post, us = (pre ++ Text.trim_units us ++ post)%list.
Proof.
  unfold Text.trim_units.
  destruct (drop_white_split us) as [pre Hpre].
  destruct (drop_white_split (List.rev (Text.drop_white us))) as [post Hpost].
  exists pre, (List.rev post).
  rewrite <- rev_app_distr, <- Hpost, rev_involutive. exact Hpre.
Qed.

Lemma trim_units_idem us :
  Text.trim_units (Text.trim_units us) = Text.trim_units us.
Proof.
  unfold Text.trim_units.
  set (x := Text.drop_white us).
  set (y := Text.drop_white (List.rev x)).
  assert (Hhead : Text.starts_black (List.rev y)).
  { destruct (drop_white_split (List.rev x)) as [post Hpost]. fold y in Hpost.
    apply (starts_black_app_l _ (List.rev post)).
    rewrite <- rev_app_distr, <- Hpost, rev_involutive.
    apply drop_white_starts_black. }
  rewrite (drop_white_fixed _ Hhead), rev_involutive.
  now rewrite (drop_white_fixed y (drop_white_starts_black _)).
Qed.

Lemma grouped_trim_units s : Text.grouped (Text.trim_units (Text.units s)).
Proof.
  destruct (trim_units_within (Text.units s)) as (pre & post & H).
  pose proof (grouped_units s) as Hg. rewrite H in Hg.
  now apply grouped_app_r, grouped_app_l in Hg.
Qed.

Lemma trim_idem s : Text.trim (Text.trim s) = Text.trim s.
Proof.
  unfold Text.trim.
  now rewrite (units_glue _ (grouped_trim_units s)), trim_units_idem.
Qed.

Lemma trim_within s : exists a b, s = (a ++ Text.trim s ++ b)%string.
Proof.
  destruct (trim_units_within (Text.units s)) as (pre & post & H).
  exists (Text.glue pre), (Text.glue post).
  unfold Text.trim. now rewrite <- !glue_app, <- H, glue_units.
Qed.

Lemma truthy_trim_nonempty s : Js.truthy (Text.trim s) = true -> s <> "".
Proof. intros H ->. discriminate. Qed.

(** No occurrence of the character [c]. *)
Lemma includes_char_cons c a s :
  Js.includes (String c "") (String a s)
  = Ascii.eqb c a || Js.includes (String c "") s.
Proof.
  simpl. destruct (ascii_dec c a) as [-> | Hne].
  - rewrite Ascii.eqb_refl. now destruct s.
  - apply Ascii.eqb_neq in Hne. rewrite Hne. reflexivity.
Qed.

Lemma includes_char_empty c : Js.includes (String c "") "" = false.
Proof. reflexivity. Qed.

Lemma includes_char_app c (a b : string) :
  Js.includes (String c "") (a ++ b)
  = Js.includes (String c "") a || Js.includes (String c "") b.
Proof.
  induction a as [| x a IH]; [reflexivity |].
  change (String x a ++ b)%string with (String x (a ++ b)).
  now rewrite !includes_char_cons, IH, orb_assoc.
Qed.

Lemma trim_lacks c s :
  Js.includes (String c "") s = false ->
  Js.includes (String c "") (Text.trim s) = false.
Proof.
  intros H. destruct (trim_within s) as (a & b & E).
  assert (H' : Js.includes (String c "") (a ++ Text.trim s ++ b) = false)
    by now rewrite <- E.
  rewrite !includes_char_app in H'.
  apply orb_false_elim in H' as [_ H']. now apply orb_false_elim in H' as [H' _].
Qed.

Lemma split_pieces_lack_separator sep s piece :
  In piece (Text.split sep s) -> Js.includes (String sep "") piece = false.
Proof.
  revert piece. induction s as [| a rest IH]; intros piece.
  - simpl. intros [<- | []]. reflexivity.
  - cbn [Text.split]. destruct (Ascii.eqb a sep) eqn:E.
    + intros [<- | H]; [reflexivity | auto].
    + destruct (Text.split sep rest) as [| p ps] eqn:Es.
      * intros [<- | []]. rewrite includes_char_cons, Ascii.eqb_sym, E. reflexivity.
      * intros [<- | H].
        -- rewrite includes_char_cons, Ascii.eqb_sym, E. simpl.
           apply IH. now left.
        -- apply IH. now right.
Qed.

Lemma split_not_empty sep s : Text.split sep s <> [].
Proof.
  destruct s as [| c rest]; [discriminate |].
  cbn [Text.split]. destruct (Ascii.eqb c sep); [discriminate |].
  now destruct (Text.split sep rest).
Qed.

(** The pieces of [split], joined with the separator, are the text. *)
Lemma join_split sep s : Js.join (String sep "") (Text.split sep s) = s.
Proof.
  induction s as [| c rest IH]; [reflexivity |].
  cbn [Text.split]. pose proof (split_not_empty sep rest) as Hne.
  destruct (Ascii.eqb_spec c sep) as [-> | _].
  - destruct (Text.split sep rest) as [| p ps]; [contradiction |].
    cbn [Js.join]. cbn [Js.join] in IH. now rewrite IH.
  - destruct (Text.split sep rest) as [| p ps]; [contradiction |].
    cbn [Js.join]. cbn [Js.join] in IH.
    destruct ps; simpl; now rewrite <- IH.
Qed.

Lemma split_without_separator sep s :
  Js.includes (String sep "") s = false -> Text.split sep s = [s].
Proof.
  induction s as [| a rest IH]; [reflexivity |].
  rewrite includes_char_cons. intros H. apply orb_false_elim in H as [Ha Hr].
  cbn [Text.split]. now rewrite Ascii.eqb_sym, Ha, (IH Hr).
Qed.

Lemma split_at_separator sep piece rest :
  Js.includes (String sep "") piece = false ->
  Text.split sep (piece ++ String sep rest) = piece :: Text.split sep rest.
Proof.
  induction piece as [| a piece IH].
  - intros _. simpl. now rewrite Ascii.eqb_refl.
  - rewrite includes_char_cons. intros H. apply orb_false_elim in H as [Ha Hr].
    change (String a piece ++ String sep rest)%string
      with (String a (piece ++ String sep rest)).
    cbn [Text.split]. now rewrite Ascii.eqb_sym, Ha, (IH Hr).
Qed.

(** [split] finds the pieces a text was joined from. *)
Lemma split_join sep pieces :
  pieces <> [] ->
  Forall (fun piece => Js.includes (String sep "") piece = false) pieces ->
  Text.split sep (Js.join (String sep "") pieces) = pieces.
Proof.
  induction pieces as [| p pieces IH]; [contradiction |].
  intros _ H. inversion H as [| x l Hp Hrest]. subst.
  destruct pieces as [| q pieces].
  - now apply split_without_separator.
  - change (Js.join (String sep "") (p :: q :: pieces))
      with (p ++ String sep (Js.join (String sep "") (q :: pieces)))%string.
    rewrite (split_at_separator _ _ _ Hp), IH; [reflexivity | discriminate | exact Hrest].
Qed.

(** X18. The tags the upload form sends are the pieces of the tags field
    between its commas, each trimmed, without the empty ones, in the order
    typed: the field is the comma-join of pieces without a comma, and
    whichever such pieces it is the join of, the tags are their non-empty
    trimmed forms. So no tag sent is empty, none has white space at
    either end, none contains a comma. *)
Theorem processed_tags_are_the_trimmed_pieces :
  forall tags,
    (exists pieces,
        Js.join "," pieces = tags /\
        Forall (fun piece => Js.includes "," piece = false) pieces) /\
    (forall pieces,
        Js.join "," pieces = tags ->
        Forall (fun piece => Js.includes "," piece = false) pieces ->
        DocumentUpload.processed_tags tags
          = filter (fun tag => negb (String.eqb tag "")) (map Text.trim pieces)) /\
    (forall tag,
        In tag (DocumentUpload.processed_tags tags) ->
        tag <> "" /\
        Text.trim tag = tag /\
        Js.includes "," tag = false).
Proof.
  intros tags. repeat apply conj.
  - exists (Text.split ","%char tags). split; [apply join_split |].
    apply Forall_forall. intros piece. apply split_pieces_lack_separator.
  - intros pieces Hjoin Hpieces. unfold DocumentUpload.processed_tags.
    assert (Hfilter : forall l, filter Js.truthy l
                                = filter (fun tag => negb (String.eqb tag "")) l).
    { intros l. apply filter_ext. now intros [| c t]. }
    rewrite Hfilter. destruct pieces as [| p pieces].
    + simpl in Hjoin. now subst tags.
    + subst tags. change "," with (String ","%char "").
      rewrite split_join; [reflexivity | discriminate | exact Hpieces].
  - intros tag Hin. unfold DocumentUpload.processed_tags in Hin.
    apply filter_In in Hin as [Hin Htruthy].
    apply in_map_iff in Hin as (piece & <- & Hpiece).
    repeat split.
    + intros E. rewrite E in Htruthy. discriminate.
    + apply trim_idem.
    + apply trim_lacks. eapply split_pieces_lack_separator; eauto.
Qed.

Lemma processed_tags_witness :
  DocumentUpload.processed_tags " ai, ml ,, leadership ,  " = ["ai"; "ml"; "leadership"] /\
  Text.trim "ml" = "ml".
Proof.
  pose proof (processed_tags_are_the_trimmed_pieces " ai, ml ,, leadership ,  ")
    as (_ & Hpieces & Hclean).
  split.
  - apply (Hpieces [" ai"; " ml "; ""; " leadership "; "  "]).
    + reflexivity.
    + repeat constructor.
  - apply (Hclean "ml"). vm_compute. tauto.
Defined.

(** White space beyond ASCII is trimmed as well: a no-break space, a line
    separator, a byte order mark. *)
Example trim_strips_unicode_white_space :
  Text.trim (Text.unit_bytes 160 ++ " ai" ++ Text.unit_bytes 8232 ++ Text.unit_bytes 65279)
    = "ai" /\
  Text.trim (Text.unit_bytes 160) = "" /\
  Text.trim (Text.unit_bytes 233) = Text.unit_bytes 233.
Proof. repeat split. Qed.



Lemma refuses_false (ui : ChatInterface.State) :
  ChatInterface.refuses ui = false ->
  ChatInterface.inputMessage ui <> "" /\ ChatInterface.isLoading ui = false.
Proof.
  unfold ChatInterface.refuses. intros H. apply orb_false_elim in H as [Ht Hl].
  apply negb_false_iff in Ht. split; [now apply truthy_trim_nonempty | exact Hl].
Qed.



Lemma upload_route_not_400 W (rt : Runtime W) (ragService : RAGService W) text md
    (st : Routes.AppState W) :
  text <> "" ->
  exists res st',
    Routes.handle rt ragService (Routes.POST_rag_upload (Js.str text) md) st = (Ok res, st') /\
    (Routes.http_status res = 200 \/ Routes.http_status res = 500).
Proof.
  intros Ht. simpl Routes.handle. rewrite (rag_upload_run _ _ _ _ _ _ Ht).
  destruct (Routes.call _ st) as [[r | e] st']; eexists; eexists;
    (split; [reflexivity | simpl; auto]).
Qed.

Lemma chat_route_not_400 W (rt : Runtime W) (ragService : RAGService W) text sid
    (st : Routes.AppState W) :
  text <> "" ->
  exists res st',
    Routes.handle rt ragService (Routes.POST_rag_chat (Js.str text) sid) st = (Ok res, st') /\
    (Routes.http_status res = 200 \/ Routes.http_status res = 500).
Proof.
  intros Ht. simpl Routes.handle.
  unfold Routes.rag_chat, try_catch, bind, Routes.call.
  rewrite (as_truthy_str _ Ht).
  destruct (RAG.chat ragService text sid (Routes.world st)) as [[r | e] w'];
    eexists; eexists; (split; [reflexivity | simpl; auto]).
Qed.

(** X20. What the two views let through, the routes accept: content that
    passes the upload form's guard, and a question that passes the chat
    view's, is never answered with 400 by POST /rag/upload or POST
    /rag/chat. The converse fails: text that is only white space is held
    back by the views, yet the routes take it and hand it to the
    service. *)
Theorem views_are_stricter_than_routes :
  forall W (rt : Runtime W) (ragService : RAGService W) (st : Routes.AppState W),
    (forall content md,
        DocumentUpload.refuses content = false ->
        exists res st',
          Routes.handle rt ragService (Routes.POST_rag_upload (Js.str content) md) st
            = (Ok res, st') /\
          (Routes.http_status res = 200 \/ Routes.http_status res = 500)) /\
    (forall ui sid,
        ChatInterface.refuses ui = false ->
        exists res st',
          Routes.handle rt ragService
            (Routes.POST_rag_chat (Js.str (ChatInterface.inputMessage ui)) sid) st
            = (Ok res, st') /\
          (Routes.http_status res = 200 \/ Routes.http_status res = 500)) /\
    (forall text md sid,
        text <> "" -> Text.trim text = "" ->
        DocumentUpload.refuses text = true /\
        ChatInterface.refuses
          {| ChatInterface.messages := [];
             ChatInterface.inputMessage := text;
             ChatInterface.isLoading := false |} = true /\
        (exists res st',
            Routes.handle rt ragService (Routes.POST_rag_upload (Js.str text) md) st
              = (Ok res, st') /\
            (Routes.http_status res = 200 \/ Routes.http_status res = 500)) /\
        (exists res st',
            Routes.handle rt ragService (Routes.POST_rag_chat (Js.str text) sid) st
              = (Ok res, st') /\
            (Routes.http_status res = 200 \/ Routes.http_status res = 500))).
Proof.
  intros W rt ragService st. repeat apply conj.
  - intros content md H. apply upload_route_not_400.
    unfold DocumentUpload.refuses in H. apply negb_false_iff in H.
    now apply truthy_trim_nonempty.
  - intros ui sid H. apply chat_route_not_400. now apply refuses_false.
  - intros text md sid Hne Hblank. repeat apply conj.
    + unfold DocumentUpload.refuses. now rewrite Hblank.
    + unfold ChatInterface.refuses. simpl. now rewrite Hblank.
    + now apply upload_route_not_400.
    + now apply chat_route_not_400.
Qed.

Lemma views_are_stricter_witness :
  DocumentUpload.refuses "   " = true /\
  exists res st',
    Routes.handle InMemory.toy_runtime (InMemory.toy_service true)
      (Routes.POST_rag_upload (Js.str "   ") None) Scenario.fresh_state = (Ok res, st') /\
    (Routes.http_status res = 200 \/ Routes.http_status res = 500).
Proof.
  destruct (proj2 (proj2 (views_are_stricter_than_routes _ InMemory.toy_runtime
                            (InMemory.toy_service true) Scenario.fresh_state))
                  "   " None Js.undefined) as (H1 & _ & H2 & _).
  - discriminate.
  - reflexivity.
  - split; assumption.
Defined.

Lemma AxiosError_404 :
  Api.AxiosError 404
  = {| Js.name := "AxiosError"; Js.message := Some "Request failed with status code 404" |}.
Proof. reflexivity. Qed.



(** An id with a query mark, a slash or a percent sign, or a dot segment,
    makes another URL: the client call is not followed for it. *)
Example ids_that_change_the_url :
  map Api.plain_segment ["a?b"; "a/b"; "a%41"; "a#b"; ".."; "."; ""; "a b"]
  = [false; false; false; false; false; false; false; false].
Proof. reflexivity. Qed.
